(** * LectureLedger: the lesson store and its dialog, verified

    A shallow embedding of [Lessons.py]: the [LessonsDB] data-access layer
    over the single table [lessons], the modal [LessonDialog], and the
    callbacks of [App] that drive the store.

    Modelling conventions.
    - A Python [str] is the list of its Unicode code points.  SQLite stores
      text as UTF-8 and compares it bytewise ([BINARY]) or bytewise after
      folding the 26 ASCII capitals ([NOCASE]); on UTF-8 both orders agree
      with the lexicographic order of the code points, which is what is
      modelled here.  [NOCASE] besides stops at a NUL byte and then lets
      the lengths in bytes decide; the model does the same.
    - The table is the list of its records, in rowid order.  The statements
      [INSERT], [UPDATE], [DELETE] and [SELECT] are functions on that list.
    - Integers bound as SQL parameters are unbounded [Z]; the 64-bit limit
      of an SQLite INTEGER is not reached by the identities the store hands
      out and is left out of the model.
    - The clock ([CURRENT_TIMESTAMP], [date.today()]) is an input of the
      operations that read it.
    - The main loop is a step function on the application state, one step
      for each thing the user does; a step returns the message boxes it
      shows and the calls it makes on the store, in the order made.  A
      session is a list of such events. *)

From Stdlib Require Import Strings.String Strings.Ascii NArith ZArith Lia.
From stdpp Require Import prelude strings sorting.

Local Open Scope Z_scope.

(** ** Python strings *)

Definition pystr : Type := list N.

(** A literal of the source, as a list of code points. *)
Definition str (s : string) : pystr := N_of_ascii <$> list_ascii_of_string s.

(** [str.isspace] on one code point: the set [str.strip] removes. *)
Definition is_space (c : N) : bool :=
  ((9 <=? c) && (c <=? 13) || (28 <=? c) && (c <=? 32)
   || (c =? 133) || (c =? 160) || (c =? 5760)
   || (8192 <=? c) && (c <=? 8202)
   || (c =? 8232) || (c =? 8233) || (c =? 8239) || (c =? 8287)
   || (c =? 12288))%N.

Fixpoint lstrip (s : pystr) : pystr :=
  match s with
  | [] => []
  | c :: s' => if is_space c then lstrip s' else s
  end.

Definition rstrip (s : pystr) : pystr := reverse (lstrip (reverse s)).

(** [s.strip()] *)
Definition strip (s : pystr) : pystr := rstrip (lstrip s).

(** Truth value of a [str | None] in a Python condition. *)
Definition truthy (o : option pystr) : bool :=
  match o with
  | Some (_ :: _) => true
  | _ => false
  end.

Definition pystr_eqb (a b : pystr) : bool := bool_decide (a = b).

(** ** Collations *)

Definition then_cmp (c d : comparison) : comparison :=
  match c with Eq => d | _ => c end.

Fixpoint lex_compare (a b : pystr) : comparison :=
  match a, b with
  | [], [] => Eq
  | [], _ :: _ => Lt
  | _ :: _, [] => Gt
  | x :: a', y :: b' => then_cmp (x ?= y)%N (lex_compare a' b')
  end.

(** [BINARY], the default collation of a TEXT column. *)
Definition binary_compare : pystr -> pystr -> comparison := lex_compare.

(** The folding of [NOCASE]: ASCII capitals only. *)
Definition nocase_fold (c : N) : N :=
  if ((65 <=? c) && (c <=? 90))%N then (c + 32)%N else c.

(** The number of bytes a code point takes in UTF-8. *)
Definition utf8_len (c : N) : N :=
  if (c <? 128)%N then 1%N
  else if (c <? 2048)%N then 2%N
  else if (c <? 65536)%N then 3%N
  else 4%N.

Definition utf8_length (s : pystr) : N :=
  foldr (fun c n => (utf8_len c + n)%N) 0%N s.

(** [NOCASE]: SQLite runs [sqlite3_strnicmp] over the bytes the two texts
    have in common and, when that finds no difference, compares the
    lengths in bytes.  The loop folds each byte, stops at the first
    difference, and also stops where the first text has a NUL: a NUL
    there is a difference when the other text has another byte, and no
    difference when it has a NUL as well, in which case the lengths
    decide.  Folding touches single-byte code points only and UTF-8 keeps
    the order of the code points, so the loop is written on code points. *)
Fixpoint nocase_compare (a b : pystr) : comparison :=
  match a, b with
  | [], [] => Eq
  | [], _ :: _ => Lt
  | _ :: _, [] => Gt
  | x :: a', y :: b' =>
      if (x =? 0)%N then
        if (y =? 0)%N then (utf8_length a' ?= utf8_length b')%N else Lt
      else then_cmp (nocase_fold x ?= nocase_fold y)%N (nocase_compare a' b')
  end.

(** The order a comparison induces: [a] does not come after [b]. *)
Definition cmp_le {A} (cmp : A -> A -> comparison) : relation A :=
  fun a b => cmp a b <> Gt.

Global Instance cmp_le_dec {A} (cmp : A -> A -> comparison) a b :
  Decision (cmp_le cmp a b).
Proof.
  unfold cmp_le. destruct (cmp a b);
    [left; discriminate | left; discriminate | right; intros H; apply H; reflexivity].
Defined.

(** ** The table *)

Record Lesson := mkLesson {
  lesson_id : Z;
  title : pystr;
  course : pystr;
  day : pystr;
  done : Z;
  created_at : pystr
}.

(** The connection's view of the database: the records of [lessons] and the
    AUTOINCREMENT counter SQLite keeps for the table in [sqlite_sequence]. *)
Record DB := mkDB {
  rows : list Lesson;
  seq : Z
}.

(** [_init_schema] on a new file. *)
Definition empty_db : DB := mkDB [] 0.

Definition max_id (l : list Lesson) : Z :=
  foldr (fun r m => Z.max (lesson_id r) m) 0 l.

(** The rowid an AUTOINCREMENT insert picks: one more than the largest
    rowid the table holds or has ever held. *)
Definition fresh_id (db : DB) : Z := Z.max (seq db) (max_id (rows db)) + 1.

(** [int(x)] on a Python [int]. *)
Definition int (x : Z) : Z := x.

(** [add_lesson]; [done = None] is the call that omits the argument, [now]
    is the value of CURRENT_TIMESTAMP. *)
Definition add_lesson (now : pystr) (db : DB)
    (title_ course_ day_ : pystr) (done_ : option Z) : DB :=
  let i := fresh_id db in
  mkDB (rows db ++ [mkLesson i (strip title_) (strip course_) (strip day_)
                             (int (default 0 done_)) now])
       i.

(** [UPDATE lessons SET ... WHERE id = i]: [set] on the records with that
    id, in place. *)
Definition sql_update (set : Lesson -> Lesson) (i : Z) (l : list Lesson)
    : list Lesson :=
  (fun r => if bool_decide (lesson_id r = i) then set r else r) <$> l.

Definition update_lesson (db : DB) (id_ : Z)
    (title_ course_ day_ : pystr) (done_ : Z) : DB :=
  mkDB (sql_update
          (fun r => mkLesson (lesson_id r) (strip title_) (strip course_)
                             (strip day_) (int done_) (created_at r))
          (int id_) (rows db))
       (seq db).

Definition delete_lesson (db : DB) (id_ : Z) : DB :=
  mkDB (filter (fun r => lesson_id r <> int id_) (rows db)) (seq db).

(** [CASE done WHEN 0 THEN 1 ELSE 0 END] *)
Definition flip_done (d : Z) : Z := if bool_decide (d = 0) then 1 else 0.

Definition toggle_done (db : DB) (id_ : Z) : DB :=
  mkDB (sql_update
          (fun r => mkLesson (lesson_id r) (title r) (course r) (day r)
                             (flip_done (done r)) (created_at r))
          (int id_) (rows db))
       (seq db).

(** The order in which [list_courses] gets its values: by NOCASE, and by
    BINARY among values NOCASE does not tell apart. *)
Definition distinct_course_compare (a b : pystr) : comparison :=
  then_cmp (nocase_compare a b) (binary_compare a b).

(** [SELECT DISTINCT course ... ORDER BY course COLLATE NOCASE]: duplicates
    are removed under the column's own collation (BINARY, exact equality),
    the survivors are ordered under NOCASE.  SQL leaves the relative order
    of NOCASE-equal values open.  SQLite reads the distinct values off
    [idx_lessons_course], which [_init_schema] creates, in the order of
    that index, BINARY, and its sorter keeps that order among values that
    tie: whatever the order of insertion, "MATH", "Math" and "math" come
    out in this order. *)
Definition list_courses (db : DB) : list pystr :=
  merge_sort (cmp_le distinct_course_compare) (remove_dups (course <$> rows db)).

(** *** query *)

(** A row as [fetchall] returns it: the five selected columns. *)
Record Row := mkRow {
  r_id : Z;
  r_title : pystr;
  r_course : pystr;
  r_day : pystr;
  r_done : Z
}.

Definition select_row (r : Lesson) : Row :=
  mkRow (lesson_id r) (title r) (course r) (day r) (done r).

(** The terms the method appends to [where], with their bound parameter. *)
Inductive Cond :=
| DayEq (p : pystr)
| CourseEq (p : pystr)
| DoneIsZero.

Definition eval_cond (c : Cond) (r : Lesson) : bool :=
  match c with
  | DayEq p => pystr_eqb (day r) p
  | CourseEq p => pystr_eqb (course r) p
  | DoneIsZero => bool_decide (done r = 0)
  end.

(** The conjunction [" AND ".join(where)]; no WHERE clause when empty. *)
Definition accepts (w : list Cond) (r : Lesson) : bool :=
  forallb (fun c => eval_cond c r) w.

Definition TUTTE : pystr := str "TUTTE".
Definition TUTTI : pystr := str "TUTTI".

Definition query_where (day_ course_ : option pystr) (only_undone : bool)
    : list Cond :=
  (if truthy day_ && negb (bool_decide (day_ = Some TUTTE))
   then [DayEq (default [] day_)] else [])
  ++ (if truthy course_ && negb (bool_decide (course_ = Some TUTTI))
      then [CourseEq (default [] course_)] else [])
  ++ (if only_undone then [DoneIsZero] else []).

(** [ORDER BY day ASC, course COLLATE NOCASE ASC, done ASC, id ASC] *)
Definition row_compare (a b : Row) : comparison :=
  then_cmp (binary_compare (r_day a) (r_day b))
    (then_cmp (nocase_compare (r_course a) (r_course b))
       (then_cmp (r_done a ?= r_done b) (r_id a ?= r_id b))).

Definition row_le : relation Row := cmp_le row_compare.

Definition query (db : DB) (day_ course_ : option pystr) (only_undone : bool)
    : list Row :=
  let where_ := query_where day_ course_ only_undone in
  merge_sort row_le
    (select_row <$> filter (fun r => accepts where_ r) (rows db)).


(** ** validate_iso_date *)

(** What the model takes from the platform rather than from [Lessons.py]:
    the Unicode database behind the regex class [\d] and [int()], and the
    conversion Tk applies to a cell value read back from the Treeview. *)
Class Platform := {
  (** the decimal value of a non-ASCII code point of category Nd *)
  unicode_decimal : N -> option N;
  (** a displayed value as [tree.item(...)] hands it back *)
  tk_value : pystr -> pystr
}.

Section validation.
Context `{Platform}.

(** [\d], with the value [int()] gives the digit. *)
Definition decimal (c : N) : option Z :=
  if ((48 <=? c) && (c <=? 57))%N then Some (Z.of_N c - 48)
  else if (c <? 128)%N then None
  else Z.of_N <$> unicode_decimal c.

(** A class [[lo-hi]] of ASCII digits. *)
Definition digit_in (lo hi : Z) (c : N) : option Z :=
  let v := Z.of_N c - 48 in
  if bool_decide (lo <= v <= hi) then Some v else None.

Definition expect (c : N) (s : pystr) : option pystr :=
  match s with
  | x :: s' => if (x =? c)%N then Some s' else None
  | [] => None
  end.

(** [(?P<Y>\d\d\d\d)] *)
Definition re_Y (s : pystr) : option (Z * pystr) :=
  match s with
  | a :: b :: c :: d :: s' =>
      va ← decimal a; vb ← decimal b; vc ← decimal c; vd ← decimal d;
      Some (1000 * va + 100 * vb + 10 * vc + vd, s')
  | _ => None
  end.

(** Two-character alternative [c1 c2] and one-character alternative [c1],
    as the list of their matches (at most one each). *)
Definition alt2 (c1 c2 : N -> option Z) (s : pystr) : list (Z * pystr) :=
  match s with
  | a :: b :: s' =>
      match c1 a, c2 b with
      | Some va, Some vb => [(10 * va + vb, s')]
      | _, _ => []
      end
  | _ => []
  end.

Definition alt1 (c1 : N -> option Z) (s : pystr) : list (Z * pystr) :=
  match s with
  | a :: s' => match c1 a with Some va => [(va, s')] | None => [] end
  | [] => []
  end.

(** [(?P<m>1[0-2]|0[1-9]|[1-9])]: the matches in the order the regex
    engine tries them. *)
Definition re_m (s : pystr) : list (Z * pystr) :=
  alt2 (digit_in 1 1) (digit_in 0 2) s
  ++ alt2 (digit_in 0 0) (digit_in 1 9) s
  ++ alt1 (digit_in 1 9) s.

(** [(?P<d>3[0-1]|[1-2]\d|0[1-9]|[1-9]| [1-9])] *)
Definition re_d (s : pystr) : list (Z * pystr) :=
  alt2 (digit_in 3 3) (digit_in 0 1) s
  ++ alt2 (digit_in 1 2) decimal s
  ++ alt2 (digit_in 0 0) (digit_in 1 9) s
  ++ alt1 (digit_in 1 9) s
  ++ match expect 32 s with Some s' => alt1 (digit_in 1 9) s' | None => [] end.

(** [format_regex.match(data_string)] for the format [%Y-%m-%d]: the
    first match under backtracking, with what follows it. *)
Definition re_date (s : pystr) : option (Z * Z * Z * pystr) :=
  '(y, s1) ← re_Y s;
  s2 ← expect 45 s1;
  head (omap (fun '(m, s3) =>
                s4 ← expect 45 s3;
                '(d, s5) ← head (re_d s4);
                Some (y, m, d, s5))
             (re_m s2)).

Definition is_leap (y : Z) : bool :=
  bool_decide (y mod 4 = 0) && (negb (bool_decide (y mod 100 = 0)) || bool_decide (y mod 400 = 0)).

Definition days_in_month (y m : Z) : Z :=
  if bool_decide (m = 2) then (if is_leap y then 29 else 28)
  else if bool_decide (m = 4 \/ m = 6 \/ m = 9 \/ m = 11) then 30
  else 31.

(** [datetime.strptime(s, DATE_FMT)]; [None] is the ValueError: no match,
    unconverted data after the match, or a date [datetime] refuses. *)
Definition strptime_DATE_FMT (s : pystr) : option (Z * Z * Z) :=
  '(y, m, d, rest) ← re_date s;
  if bool_decide (rest = []) && bool_decide (1 <= y)
     && bool_decide (1 <= m <= 12) && bool_decide (1 <= d <= days_in_month y m)
  then Some (y, m, d) else None.

Definition validate_iso_date (s : pystr) : bool :=
  match strptime_DATE_FMT (strip s) with
  | Some _ => true
  | None => false
  end.
End validation.


(** ** LessonDialog *)

(** The dict [_save] leaves in [result]. *)
Record Payload := mkPayload {
  p_title : pystr;
  p_course : pystr;
  p_day : pystr;
  p_done : Z
}.

(** The keys of [initial] the constructor reads; [None] is an absent key. *)
Record Initial := mkInitial {
  i_title : option pystr;
  i_course : option pystr;
  i_day : option pystr;
  i_done : option Z
}.

Record Dialog := mkDialog {
  e_title : pystr;
  e_course : pystr;
  e_day : pystr;
  var_done : Z;
  result : option Payload;
  destroyed : bool
}.

(** The calls on [self.db] and the message boxes, in the order made. *)
Inductive Call :=
| CallAdd (p : Payload)
| CallUpdate (i : Z) (p : Payload)
| CallDelete (i : Z)
| CallToggle (i : Z)
| CallListCourses
| CallQuery.

Inductive Effect :=
| ShowError (msg : string)
| ShowInfo (msg : string)
| Store (c : Call).

(** The readings of the clock an event may use. *)
Record Clock := mkClock {
  today_iso : pystr;
  current_timestamp : pystr
}.

(** What the user does in the dialog.  Return is [ClickSalva], Escape is
    [ClickAnnulla]. *)
Inductive DialogEvent :=
| TypeTitle (s : pystr)
| TypeCourse (s : pystr)
| TypeDay (s : pystr)
| CheckDone
| ClickOggi
| ClickSalva
| ClickAnnulla.

(** The Checkbutton on [var_done]: on-value 1, off-value 0. *)
Definition check_toggle (v : Z) : Z := if bool_decide (v = 1) then 0 else 1.

Section dialog.
Context `{Platform}.

(** [LessonDialog.__init__] *)
Definition new_dialog (clk : Clock) (initial : Initial) : Dialog :=
  mkDialog (default [] (i_title initial))
           (default [] (i_course initial))
           (default (today_iso clk) (i_day initial))
           (int (default 0 (i_done initial)))
           None false.

Definition _set_today (clk : Clock) (d : Dialog) : Dialog :=
  mkDialog (e_title d) (e_course d) (today_iso clk) (var_done d) (result d) (destroyed d).

Definition _cancel (d : Dialog) : Dialog :=
  mkDialog (e_title d) (e_course d) (e_day d) (var_done d) None true.

Definition _save (d : Dialog) : Dialog * list Effect :=
  let title_ := strip (e_title d) in
  let course_ := strip (e_course d) in
  let day_ := strip (e_day d) in
  let done_ := int (var_done d) in
  if bool_decide (title_ = []) then
    (d, [ShowError "Inserisci il nome della lezione."])
  else if bool_decide (course_ = []) then
    (d, [ShowError "Inserisci il corso/categoria."])
  else if negb (validate_iso_date day_) then
    (d, [ShowError "La data deve essere nel formato YYYY-MM-DD (es. 2025-11-25)."])
  else
    (mkDialog (e_title d) (e_course d) (e_day d) (var_done d)
              (Some (mkPayload title_ course_ day_ done_)) true, []).

Definition dialog_step (clk : Clock) (e : DialogEvent) (d : Dialog)
    : Dialog * list Effect :=
  match e with
  | TypeTitle s => (mkDialog s (e_course d) (e_day d) (var_done d) (result d) (destroyed d), [])
  | TypeCourse s => (mkDialog (e_title d) s (e_day d) (var_done d) (result d) (destroyed d), [])
  | TypeDay s => (mkDialog (e_title d) (e_course d) s (var_done d) (result d) (destroyed d), [])
  | CheckDone =>
      (mkDialog (e_title d) (e_course d) (e_day d) (check_toggle (var_done d))
                (result d) (destroyed d), [])
  | ClickOggi => (_set_today clk d, [])
  | ClickSalva => _save d
  | ClickAnnulla => (_cancel d, [])
  end.
End dialog.

(** ** App *)

(** Which callback is blocked in [wait_window] on the open dialog. *)
Inductive Mode :=
| Adding
| Editing (row_id : Z).

Record App := mkApp {
  db : DB;
  var_day : pystr;
  var_course : pystr;
  var_only_undone : Z;
  cb_values : list pystr;
  tree : list Row;
  selection : option nat;
  status : nat;
  modal : option (Mode * Dialog)
}.

(** What the user does in the main window, and [InDialog] for what they do
    in the open dialog.  Double click is [ClickModifica], space is
    [ClickFatta]; [ClickElimina] carries the answer to the confirmation. *)
Inductive Event :=
| InDialog (e : DialogEvent)
| TypeDayFilter (s : pystr)
| ClickApplica
| ClickFilterOggi
| ClickTutte
| SelectCourse (n : nat)
| CheckSoloNonFatte
| SelectRow (n : nat)
| ClickAggiungi
| ClickModifica
| ClickElimina (yes : bool)
| ClickFatta
| ClickRicarica.

(** A callback: a change of the application state and the effects it has. *)
Definition Act : Type := App -> App * list Effect.

Definition skip : Act := fun st => (st, []).
Definition emit (e : Effect) : Act := fun st => (st, [e]).
Definition emit_all (l : list Effect) : Act := fun st => (st, l).
Definition seq_act (f g : Act) : Act :=
  fun st => let '(st1, e1) := f st in let '(st2, e2) := g st1 in (st2, e1 ++ e2).
Infix ">>>" := seq_act (at level 62, right associativity).

Definition set_db (x : DB) : Act := fun st =>
  (mkApp x (var_day st) (var_course st) (var_only_undone st) (cb_values st)
         (tree st) (selection st) (status st) (modal st), []).
Definition set_filters (d c : pystr) (u : Z) : Act := fun st =>
  (mkApp (db st) d c u (cb_values st) (tree st) (selection st) (status st) (modal st), []).
Definition set_cb_values (v : list pystr) : Act := fun st =>
  (mkApp (db st) (var_day st) (var_course st) (var_only_undone st) v
         (tree st) (selection st) (status st) (modal st), []).
Definition set_tree (t : list Row) (sel : option nat) (n : nat) : Act := fun st =>
  (mkApp (db st) (var_day st) (var_course st) (var_only_undone st) (cb_values st)
         t sel n (modal st), []).
Definition set_modal (m : option (Mode * Dialog)) : Act := fun st =>
  (mkApp (db st) (var_day st) (var_course st) (var_only_undone st) (cb_values st)
         (tree st) (selection st) (status st) m, []).

(** [a or b] on strings. *)
Definition or_else (a b : pystr) : pystr := if bool_decide (a = []) then b else a.

(** [bool(x)] on an integer. *)
Definition bool_of_int (x : Z) : bool := negb (bool_decide (x = 0)).

Section app.
Context `{Platform}.

Definition _refresh_courses : Act := fun st =>
  let courses := list_courses (db st) in
  let values := TUTTI :: courses in
  (emit (Store CallListCourses) >>>
   set_cb_values values >>>
   (if bool_decide (var_course st ∈ values) then skip
    else set_filters (var_day st) TUTTI (var_only_undone st))) st.

Definition _load_table : Act := fun st =>
  let day_filter := or_else (strip (var_day st)) TUTTE in
  let course_filter := or_else (strip (var_course st)) TUTTI in
  let only_undone := bool_of_int (var_only_undone st) in
  let rows_ := query (db st) (Some day_filter) (Some course_filter) only_undone in
  (emit (Store CallQuery) >>>
   set_tree rows_ None (length rows_) >>>
   _refresh_courses) st.

Definition _reload_all : Act := _refresh_courses >>> _load_table.

Definition _apply_filters : Act := fun st =>
  let day_ := strip (var_day st) in
  if negb (bool_decide (day_ = TUTTE)) && negb (bool_decide (day_ = []))
     && negb (validate_iso_date day_)
  then emit (ShowError "Filtro data non valido. Usa YYYY-MM-DD oppure 'TUTTE'.") st
  else _load_table st.

Definition _filter_today (clk : Clock) : Act := fun st =>
  (set_filters (today_iso clk) (var_course st) (var_only_undone st) >>> _load_table) st.

Definition _filter_all : Act := set_filters TUTTE TUTTI 0 >>> _load_table.

(** The row behind the selected item: the id from its tag, the texts as
    Tk gives them back, [done] from the displayed state. *)
Definition _get_selected_row (st : App) : option (Z * Initial) :=
  n ← selection st;
  r ← tree st !! n;
  Some (r_id r,
        mkInitial (Some (tk_value (r_title r))) (Some (tk_value (r_course r)))
                  (Some (tk_value (r_day r)))
                  (Some (if bool_of_int (r_done r) then 1 else 0))).

Definition select_first : string := "Seleziona una lezione dalla tabella.".

Definition _add (clk : Clock) : Act := fun st =>
  let initial :=
    mkInitial None None
      (Some (if validate_iso_date (var_day st) then var_day st else today_iso clk))
      None in
  set_modal (Some (Adding, new_dialog clk initial)) st.

Definition _edit_selected (clk : Clock) : Act := fun st =>
  match _get_selected_row st with
  | None => emit (ShowInfo select_first) st
  | Some (i, initial) => set_modal (Some (Editing i, new_dialog clk initial)) st
  end.

Definition _delete_selected (yes : bool) : Act := fun st =>
  match _get_selected_row st with
  | None => emit (ShowInfo select_first) st
  | Some (i, _) =>
      if yes then
        (emit (Store (CallDelete i)) >>> set_db (delete_lesson (db st) i) >>> _reload_all) st
      else skip st
  end.

Definition _toggle_done_selected : Act := fun st =>
  match _get_selected_row st with
  | None => emit (ShowInfo select_first) st
  | Some (i, _) =>
      (emit (Store (CallToggle i)) >>> set_db (toggle_done (db st) i) >>> _reload_all) st
  end.

(** The rest of [_add] or [_edit_selected], once [wait_window] returns. *)
Definition after_dialog (clk : Clock) (mode : Mode) (d : Dialog) : Act := fun st =>
  match result d with
  | None => set_modal None st
  | Some p =>
      match mode with
      | Adding =>
          (set_modal None >>>
           emit (Store (CallAdd p)) >>>
           set_db (add_lesson (current_timestamp clk) (db st)
                     (p_title p) (p_course p) (p_day p) (Some (p_done p))) >>>
           _reload_all) st
      | Editing i =>
          (set_modal None >>>
           emit (Store (CallUpdate i p)) >>>
           set_db (update_lesson (db st) i (p_title p) (p_course p) (p_day p) (p_done p)) >>>
           _reload_all) st
      end
  end.

(** One event of the main loop.  While a dialog is open it holds the grab:
    only its own events are delivered. *)
Definition app_step (clk : Clock) (ev : Event) : Act := fun st =>
  match modal st with
  | Some (mode, d) =>
      match ev with
      | InDialog e =>
          let '(d', eff) := dialog_step clk e d in
          if destroyed d'
          then (emit_all eff >>> after_dialog clk mode d') st
          else (emit_all eff >>> set_modal (Some (mode, d'))) st
      | _ => skip st
      end
  | None =>
      match ev with
      | InDialog _ => skip st
      | TypeDayFilter s => set_filters s (var_course st) (var_only_undone st) st
      | ClickApplica => _apply_filters st
      | ClickFilterOggi => _filter_today clk st
      | ClickTutte => _filter_all st
      | SelectCourse n =>
          match cb_values st !! n with
          | Some c => (set_filters (var_day st) c (var_only_undone st) >>> _load_table) st
          | None => skip st
          end
      | CheckSoloNonFatte =>
          (set_filters (var_day st) (var_course st) (check_toggle (var_only_undone st)) >>>
           _load_table) st
      | SelectRow n =>
          if bool_decide (n < length (tree st))%nat
          then set_tree (tree st) (Some n) (status st) st
          else skip st
      | ClickAggiungi => _add clk st
      | ClickModifica => _edit_selected clk st
      | ClickElimina yes => _delete_selected yes st
      | ClickFatta => _toggle_done_selected st
      | ClickRicarica => _reload_all st
      end
  end.

(** [App.__init__] on the database file as it is found. *)
Definition start (d : DB) : App * list Effect :=
  (_refresh_courses >>> _load_table)
    (mkApp d TUTTE TUTTI 0 [TUTTI] [] None 0 None).

(** A session: the events of the main loop, each with the clock it sees. *)
Fixpoint run (evs : list (Clock * Event)) (st : App) : App * list Effect :=
  match evs with
  | [] => (st, [])
  | (clk, ev) :: evs' =>
      let '(st1, e1) := app_step clk ev st in
      let '(st2, e2) := run evs' st1 in
      (st2, e1 ++ e2)
  end.

(** The store states the program can leave in its file: the new file, and
    whatever a session started on such a state leaves. *)
Inductive reachable : DB -> Prop :=
| reach_new : reachable empty_db
| reach_session d evs :
    reachable d -> reachable (db (run evs (start d).1).1).
End app.

(** * Vocabulary of the statements *)

(** The format the dialog asks for, [YYYY-MM-DD]: four digits, a hyphen,
    two digits, a hyphen, two digits. *)
Definition ascii_digit (c : N) : bool := ((48 <=? c) && (c <=? 57))%N.

Definition matches_YYYY_MM_DD (s : pystr) : bool :=
  match s with
  | [y1; y2; y3; y4; h1; m1; m2; h2; d1; d2] =>
      ascii_digit y1 && ascii_digit y2 && ascii_digit y3 && ascii_digit y4
      && (h1 =? 45)%N && ascii_digit m1 && ascii_digit m2
      && (h2 =? 45)%N && ascii_digit d1 && ascii_digit d2
  | _ => false
  end.

(** The platform used in the worked examples: ASCII digits only, Tk handing
    every text back unchanged. *)
Definition plain : Platform :=
  {| unicode_decimal := fun _ => None; tk_value := fun s => s |}.

(** [SELECT * FROM lessons WHERE id = i], first hit. *)
Definition find_lesson (d : DB) (i : Z) : option Lesson :=
  head (filter (fun r => lesson_id r = i) (rows d)).

(** The flag as the program reads it: [if r["done"]]. *)
Definition is_done (r : Lesson) : bool := bool_of_int (done r).

(** A filter argument that restricts nothing: absent, empty, or the
    sentinel of its dimension. *)
Definition unrestricted (f : option pystr) (sentinel : pystr) : Prop :=
  f = None \/ f = Some [] \/ f = Some sentinel.

(** The rows [query] is to return, in the words of the specification. *)
Definition selected (day_ course_ : option pystr) (only_undone : bool)
    (r : Lesson) : Prop :=
  (unrestricted day_ TUTTE \/ day_ = Some (day r))
  /\ (unrestricted course_ TUTTI \/ course_ = Some (course r))
  /\ (only_undone = true -> done r = 0).

(** ** The order of courses, in words *)

(** The letters whose case the order of courses ignores: the 26 of ASCII,
    each capital with its small letter. *)
Definition ascii_letters : list (N * N) :=
  zip (str "ABCDEFGHIJKLMNOPQRSTUVWXYZ") (str "abcdefghijklmnopqrstuvwxyz").

Fixpoint table_lookup (c : N) (t : list (N * N)) : option N :=
  match t with
  | [] => None
  | (k, v) :: t' => if (k =? c)%N then Some v else table_lookup c t'
  end.

(** [c], one of these capitals replaced by its small letter. *)
Definition ascii_small (c : N) : N := default c (table_lookup c ascii_letters).

(** What the order reads of a text: its code points up to the first NUL,
    that NUL included, every ASCII capital as its small letter ... *)
Fixpoint caseless_prefix (s : pystr) : pystr :=
  match s with
  | [] => []
  | c :: s' => if (c =? 0)%N then [0%N] else ascii_small c :: caseless_prefix s'
  end.

(** ... and the number of bytes that follow that NUL; 0 without one. *)
Fixpoint bytes_after_nul (s : pystr) : N :=
  match s with
  | [] => 0%N
  | c :: s' => if (c =? 0)%N then utf8_length s' else bytes_after_nul s'
  end.

(** The comparison of courses: the prefixes code point by code point, the
    first difference deciding and a prefix that ends first coming first;
    between texts with the same prefix the one with fewer bytes after the
    NUL comes first.  A text without NUL is read whole: two such texts tie
    only when they are the same but for the case of ASCII letters. *)
Definition ascii_caseless_compare (a b : pystr) : comparison :=
  then_cmp (lex_compare (caseless_prefix a) (caseless_prefix b))
           (bytes_after_nul a ?= bytes_after_nul b)%N.

(** The order of the result: [a] may come before [b] when its day is
    smaller, as text; or the days are equal and its course is smaller in
    the comparison of courses; or these tie and its done is smaller; or
    these tie too and its id is not larger. *)
Definition in_order (a b : Row) : Prop :=
  binary_compare (r_day a) (r_day b) = Lt
  \/ (r_day a = r_day b
      /\ (ascii_caseless_compare (r_course a) (r_course b) = Lt
          \/ (ascii_caseless_compare (r_course a) (r_course b) = Eq
              /\ (r_done a < r_done b
                  \/ (r_done a = r_done b /\ r_id a <= r_id b))))).

(** The order of [list_courses]: [a] may come before [b] when it is smaller
    in the comparison of courses, or ties there and is not larger as
    text. *)
Definition courses_in_order (a b : pystr) : Prop :=
  ascii_caseless_compare a b = Lt
  \/ (ascii_caseless_compare a b = Eq /\ binary_compare a b <> Gt).

(** ** Case-insensitive comparison, as the specification names it *)

(** A comparison without regard to case takes a capital letter for its
    small letter, outside ASCII as well.  Of Unicode's mapping to small
    letters the part on Latin-1 is written out: A to Z, and the accented
    capitals U+00C0 to U+00DE without the multiplication sign. *)
Definition latin1_small (c : N) : N :=
  if ((65 <=? c) && (c <=? 90)
      || (192 <=? c) && (c <=? 222) && negb (c =? 215))%N
  then (c + 32)%N else c.

Definition case_insensitive_compare (a b : pystr) : comparison :=
  lex_compare (latin1_small <$> a) (latin1_small <$> b).

(** The order of the result with courses compared that way. *)
Definition case_insensitive_order (a b : Row) : Prop :=
  binary_compare (r_day a) (r_day b) = Lt
  \/ (r_day a = r_day b
      /\ (case_insensitive_compare (r_course a) (r_course b) = Lt
          \/ (case_insensitive_compare (r_course a) (r_course b) = Eq
              /\ (r_done a < r_done b
                  \/ (r_done a = r_done b /\ r_id a <= r_id b))))).

(** ** Lessons inserted in one order or another *)

(** The arguments of one [add_lesson] call, with the clock it sees. *)
Record NewLesson := mkNew {
  n_now : pystr;
  n_title : pystr;
  n_course : pystr;
  n_day : pystr;
  n_done : option Z
}.

Definition add_new (d : DB) (n : NewLesson) : DB :=
  add_lesson (n_now n) d (n_title n) (n_course n) (n_day n) (n_done n).

(** The lessons of [news] inserted one after the other. *)
Definition add_all (news : list NewLesson) (d : DB) : DB := foldl add_new d news.

(** A returned row without its id: what the table of the window shows. *)
Definition shown (x : Row) : pystr * pystr * pystr * Z :=
  (r_title x, r_course x, r_day x, r_done x).

(** Two records the ORDER BY can only tell apart by their id. *)
Definition same_rank (r1 r2 : Lesson) : Prop :=
  day r1 = day r2
  /\ ascii_caseless_compare (course r1) (course r2) = Eq
  /\ done r1 = done r2.

(** No two records that show different things have the same rank. *)
Definition no_ties (d : DB) : Prop :=
  Forall (fun r1 =>
    Forall (fun r2 => same_rank r1 r2 ->
                      shown (select_row r1) = shown (select_row r2)) (rows d))
    (rows d).

Global Instance Lesson_eq_dec : EqDecision Lesson.
Proof. solve_decision. Defined.

Global Instance Row_eq_dec : EqDecision Row.
Proof. solve_decision. Defined.

Global Instance unrestricted_dec f s : Decision (unrestricted f s).
Proof. unfold unrestricted. apply _. Defined.

Global Instance selected_dec d c u r : Decision (selected d c u r).
Proof. unfold selected. apply _. Defined.

Global Instance in_order_dec a b : Decision (in_order a b).
Proof. unfold in_order. apply _. Defined.

Global Instance case_insensitive_order_dec a b : Decision (case_insensitive_order a b).
Proof. unfold case_insensitive_order. apply _. Defined.

Global Instance same_rank_dec r1 r2 : Decision (same_rank r1 r2).
Proof. unfold same_rank. apply _. Defined.

Global Instance no_ties_dec d : Decision (no_ties d).
Proof. unfold no_ties. apply _. Defined.

(** ** Lawful comparisons *)

(** A comparison that behaves like one: swapping the arguments flips the
    outcome, [Eq] is a congruence, [Lt] is transitive. *)
Class Lawful {A} (cmp : A -> A -> comparison) := {
  cmp_opp a b : cmp b a = CompOpp (cmp a b);
  cmp_eq_l a b c : cmp a b = Eq -> cmp a c = cmp b c;
  cmp_lt_trans a b c : cmp a b = Lt -> cmp b c = Lt -> cmp a c = Lt
}.

(** The comparison of the images under [f]. *)
Definition cmp_on {A B} (f : A -> B) (cmp : B -> B -> comparison) : A -> A -> comparison :=
  fun a b => cmp (f a) (f b).

(** First [c1], and [c2] where [c1] ties. *)
Definition cmp_then {A} (c1 c2 : A -> A -> comparison) : A -> A -> comparison :=
  fun a b => then_cmp (c1 a b) (c2 a b).

(** ** Callbacks and the fields they leave alone *)

Definition keeps {X} (p : App -> X) (a : Act) : Prop :=
  forall st, p (a st).1 = p st.

(** A callback that neither writes the store nor opens or closes the
    dialog. *)
Definition view_only (a : Act) : Prop := keeps db a /\ keeps modal a.

(** ** Well-formed data *)

Section well_formed.
Context `{Platform}.

(** A record as the dialog lets it through: texts trimmed, title and
    course not empty, day accepted by [validate_iso_date], done 0 or 1. *)
Definition payload_ok (q : Payload) : Prop :=
  p_title q <> [] /\ strip (p_title q) = p_title q
  /\ p_course q <> [] /\ strip (p_course q) = p_course q
  /\ validate_iso_date (p_day q) = true /\ strip (p_day q) = p_day q
  /\ (p_done q = 0 \/ p_done q = 1).

(** An open dialog: not destroyed, no result yet, the checkbox at 0 or 1. *)
Definition dialog_ok (dlg : Dialog) : Prop :=
  destroyed dlg = false /\ result dlg = None
  /\ (var_done dlg = 0 \/ var_done dlg = 1).

(** A record as the program writes it. *)
Definition row_ok (r : Lesson) : Prop :=
  title r <> [] /\ course r <> []
  /\ validate_iso_date (day r) = true
  /\ (done r = 0 \/ done r = 1).

Definition db_ok (d : DB) : Prop :=
  NoDup (lesson_id <$> rows d) /\ Forall row_ok (rows d).

(** What the main loop maintains, for a property [P] of the store: the
    store has [P] and the dialog, when one is open, is an open dialog. *)
Definition app_ok (P : DB -> Prop) (st : App) : Prop :=
  P (db st)
  /\ forall mode dlg, modal st = Some (mode, dlg) -> dialog_ok dlg.

(** [P] survives the four writes the callbacks make. *)
Class Closed (P : DB -> Prop) := {
  closed_add now d q :
    P d -> payload_ok q ->
    P (add_lesson now d (p_title q) (p_course q) (p_day q) (Some (p_done q)));
  closed_update d i q :
    P d -> payload_ok q ->
    P (update_lesson d i (p_title q) (p_course q) (p_day q) (p_done q));
  closed_delete d i : P d -> P (delete_lesson d i);
  closed_toggle d i : P d -> P (toggle_done d i)
}.
End well_formed.

(** ** Worked data *)

(** Closes a decidable goal on concrete data by evaluating its decision. *)
Ltac by_evaluation := apply (bool_decide_unpack _); vm_compute; exact I.

Definition lesson (i : Z) (t c dy : string) (dn : Z) : Lesson :=
  mkLesson i (str t) (str c) (str dy) dn (str "2025-01-01 09:00:00").

Definition algebra := lesson 1 "Algebra" "Math" "2025-01-10" 0.
Definition geometry := lesson 2 "Geometry" "Math" "2025-01-05" 0.
Definition history1 := lesson 3 "History 1" "History" "2025-01-05" 0.

Definition three_lessons : DB := mkDB [algebra; geometry; history1] 3.
Definition three_lessons_shuffled : DB := mkDB [history1; algebra; geometry] 3.

Definition tutti_lesson := lesson 4 "Ripasso" "TUTTI" "2025-01-07" 0.
Definition with_tutti : DB := mkDB [algebra; geometry; history1; tutti_lesson] 4.

Definition monday : Clock := mkClock (str "2025-11-03") (str "2025-11-03 10:00:00").

(** The letter e with an acute accent, small (U+00E9) and capital
    (U+00C9). *)
Definition e_acute_small : N := 233%N.
Definition e_acute_capital : N := 201%N.

(** Two lessons of one day whose courses differ only in the case of that
    letter: the one with the small letter not done, the other done. *)
Definition accent_lessons : DB :=
  mkDB [mkLesson 1 (str "Etude 1") [e_acute_small] (str "2025-01-05") 0
                 (str "2025-01-01 09:00:00");
        mkLesson 2 (str "Etude 2") [e_acute_capital] (str "2025-01-05") 1
                 (str "2025-01-01 09:00:00")] 2.

(** Two courses: the capital followed by b, the small letter followed by
    a. *)
Definition accent_courses : DB :=
  mkDB [mkLesson 1 (str "Etude 1") [e_acute_capital; 98%N] (str "2025-01-05") 0
                 (str "2025-01-01 09:00:00");
        mkLesson 2 (str "Etude 2") [e_acute_small; 97%N] (str "2025-01-05") 0
                 (str "2025-01-01 09:00:00")] 2.

(** Two lessons of the same day and course, both not done, and two of
    other days. *)
Definition new_algebra : NewLesson :=
  mkNew (str "2025-01-01 09:00:00") (str "Algebra") (str "Math") (str "2025-01-05") None.
Definition new_geometry : NewLesson :=
  mkNew (str "2025-01-01 09:05:00") (str "Geometry") (str "Math") (str "2025-01-05") None.
Definition new_logic : NewLesson :=
  mkNew (str "2025-01-01 09:15:00") (str "Logic") (str "Math") (str "2025-01-12") None.
Definition new_history : NewLesson :=
  mkNew (str "2025-01-01 09:10:00") (str "History 1") (str "History") (str "2025-01-07")
        (Some 1).

(** Aggiungi, then three blanks typed into the title field. *)
Definition blank_title_session : list (Clock * Event) :=
  [(monday, ClickAggiungi); (monday, InDialog (TypeTitle (str "   ")))].

Definition blank_title_dialog : Dialog :=
  mkDialog (str "   ") [] (str "2025-11-03") 0 None false.

(** On a new file: a lesson added with the day of the fifth of January
    written without leading zeros, then one for the tenth written in full. *)
Definition unpadded_day_session : list (Clock * Event) :=
  [(monday, ClickAggiungi);
   (monday, InDialog (TypeTitle (str "Algebra")));
   (monday, InDialog (TypeCourse (str "Math")));
   (monday, InDialog (TypeDay (str "2025-1-5")));
   (monday, InDialog ClickSalva);
   (monday, ClickAggiungi);
   (monday, InDialog (TypeTitle (str "Geometry")));
   (monday, InDialog (TypeCourse (str "Math")));
   (monday, InDialog (TypeDay (str "2025-01-10")));
   (monday, InDialog ClickSalva)].

(** ** Vocabulary of the further properties *)

(** [selected], read on a returned row. *)
Definition row_selected (day_ course_ : option pystr) (only_undone : bool)
    (x : Row) : Prop :=
  (unrestricted day_ TUTTE \/ day_ = Some (r_day x))
  /\ (unrestricted course_ TUTTI \/ course_ = Some (r_course x))
  /\ (only_undone = true -> r_done x = 0).

Global Instance row_selected_dec d c u x : Decision (row_selected d c u x).
Proof. unfold row_selected. apply _. Defined.

(** A write through [LessonsDB]. *)
Inductive Write :=
| WAdd (now title_ course_ day_ : pystr) (done_ : option Z)
| WUpdate (i : Z) (title_ course_ day_ : pystr) (done_ : Z)
| WDelete (i : Z)
| WToggle (i : Z).

Definition write (d : DB) (w : Write) : DB :=
  match w with
  | WAdd now t c dy dn => add_lesson now d t c dy dn
  | WUpdate i t c dy dn => update_lesson d i t c dy dn
  | WDelete i => delete_lesson d i
  | WToggle i => toggle_done d i
  end.

(** The id a write is aimed at; an insert is aimed at none. *)
Definition target (w : Write) : option Z :=
  match w with
  | WAdd _ _ _ _ _ => None
  | WUpdate i _ _ _ _ => Some i
  | WDelete i => Some i
  | WToggle i => Some i
  end.

(** A sequence of writes, first to last. *)
Definition writes (ws : list Write) (d : DB) : DB := foldl write d ws.

(** The filters [_load_table] passes to [query]. *)
Definition day_filter (st : App) : pystr := or_else (strip (var_day st)) TUTTE.
Definition course_filter (st : App) : pystr := or_else (strip (var_course st)) TUTTI.
Definition only_undone (st : App) : bool := bool_of_int (var_only_undone st).

(** The view is in step with the store: the table shows what [query]
    returns on the store as it is, for the course and the undone flag as
    set and for some day filter (the one last applied); the status line
    counts the rows shown; the selection is one of them; the combobox
    offers "TUTTI" and the courses of the store; the chosen course is one
    of the offers. *)
Definition view_ok (st : App) : Prop :=
  (exists day_, tree st = query (db st) day_ (Some (course_filter st)) (only_undone st))
  /\ status st = length (tree st)
  /\ (forall n, selection st = Some n -> (n < length (tree st))%nat)
  /\ cb_values st = TUTTI :: list_courses (db st)
  /\ var_course st ∈ cb_values st.

(** A call that writes the store. *)
Definition is_write_call (e : Effect) : Prop :=
  match e with
  | Store (CallAdd _) | Store (CallUpdate _ _) | Store (CallDelete _)
  | Store (CallToggle _) => True
  | _ => False
  end.

(** A callback that leaves the store alone and makes no writing call. *)
Definition quiet (a : Act) : Prop :=
  forall st, db (a st).1 = db st /\ Forall (fun e => ~ is_write_call e) (a st).2.

(** What [_reload_all] calls on the store. *)
Definition reload_calls : list Effect :=
  [Store CallListCourses; Store CallQuery; Store CallListCourses].

(** The events that can write the store. *)
Definition may_write (ev : Event) : Prop :=
  ev = InDialog ClickSalva \/ ev = ClickElimina true \/ ev = ClickFatta.

(** The texts of every record are trimmed. *)
Definition rows_trimmed (d : DB) : Prop :=
  Forall (fun r => strip (title r) = title r /\ strip (course r) = course r
                   /\ strip (day r) = day r) (rows d).

(** The character of a decimal digit. *)
Definition digit_char (v : Z) : N := Z.to_N (48 + v).

(** [date(y, m, d).strftime(DATE_FMT)], as [today_iso] calls it, for the
    years 1000 to 9999: zero-padded year, month and day. *)
Definition strftime_DATE_FMT (y m d : Z) : pystr :=
  [digit_char (y / 1000); digit_char (y / 100 mod 10);
   digit_char (y / 10 mod 10); digit_char (y mod 10); 45%N;
   digit_char (m / 10); digit_char (m mod 10); 45%N;
   digit_char (d / 10); digit_char (d mod 10)].

(** The AUTOINCREMENT counter is not behind the table: what holds on a new
    file and after every write. *)
Definition seq_ok (d : DB) : Prop := max_id (rows d) <= seq d.

(** ** Worked sessions for the further properties *)

Definition new_year : Clock := mkClock (str "2025-01-01") (str "2025-01-01 09:00:00").

Definition add_events (clk : Clock) (t c dy : string) : list (Clock * Event) :=
  [(clk, ClickAggiungi); (clk, InDialog (TypeTitle (str t)));
   (clk, InDialog (TypeCourse (str c))); (clk, InDialog (TypeDay (str dy)));
   (clk, InDialog ClickSalva)].

(** The session that builds [three_lessons] on a new file. *)
Definition three_adds : list (Clock * Event) :=
  add_events new_year "Algebra" "Math" "2025-01-10"
  ++ add_events new_year "Geometry" "Math" "2025-01-05"
  ++ add_events new_year "History 1" "History" "2025-01-05".

(** Then the first row of the table selected. *)
Definition selecting_session : list (Clock * Event) :=
  three_adds ++ [(monday, SelectRow 0)].

(** Then, instead, the add dialog opened and a title typed. *)
Definition typing_session : list (Clock * Event) :=
  three_adds ++ [(monday, ClickAggiungi); (monday, InDialog (TypeTitle (str "Logic")))].

Definition logic_dialog : Dialog :=
  mkDialog (str "Logic") [] (str "2025-11-03") 0 None false.

(** And a course typed as well. *)
Definition typed_session : list (Clock * Event) :=
  typing_session ++ [(monday, InDialog (TypeCourse (str "Math")))].

Definition logic_math_dialog : Dialog :=
  mkDialog (str "Logic") (str "Math") (str "2025-11-03") 0 None false.

(** The states these sessions lead to, on the plain platform. *)
Abbreviation after evs := (run (H:=plain) evs (start empty_db).1).1 (only parsing).

(** * Strings *)

Section strip_facts.
Implicit Types s t : pystr.

Lemma lstrip_app_nonspace s c t :
  is_space c = false -> lstrip (s ++ c :: t) = lstrip s ++ c :: t.
Proof.
  intros Hc. induction s as [|a s IH]; simpl.
  - by rewrite Hc.
  - destruct (is_space a); [exact IH | reflexivity].
Qed.

Lemma lstrip_head s :
  lstrip s = [] \/ exists c t, lstrip s = c :: t /\ is_space c = false.
Proof.
  induction s as [|a s IH]; simpl; [by left|].
  destruct (is_space a) eqn:Ha; [exact IH | right; eauto].
Qed.

Lemma lstrip_fixed c t : is_space c = false -> lstrip (c :: t) = c :: t.
Proof. intros Hc. simpl. by rewrite Hc. Qed.

Lemma lstrip_idemp s : lstrip (lstrip s) = lstrip s.
Proof.
  destruct (lstrip_head s) as [->|(c & t & -> & Hc)]; [done|].
  by apply lstrip_fixed.
Qed.

Lemma rstrip_idemp s : rstrip (rstrip s) = rstrip s.
Proof. unfold rstrip. by rewrite reverse_involutive, lstrip_idemp. Qed.

Lemma rstrip_cons_nonspace c t :
  is_space c = false -> rstrip (c :: t) = c :: rstrip t.
Proof.
  intros Hc. unfold rstrip.
  rewrite reverse_cons, <-(app_nil_r (reverse t ++ [c])), <-app_assoc.
  simpl. rewrite lstrip_app_nonspace by done.
  by rewrite reverse_app.
Qed.

(** [strip] leaves a stripped string alone: what the dialog has trimmed
    the store trims to the same text. *)
Lemma strip_idemp s : strip (strip s) = strip s.
Proof.
  unfold strip.
  destruct (lstrip_head s) as [->|(c & t & -> & Hc)]; [done|].
  rewrite rstrip_cons_nonspace by done.
  rewrite lstrip_fixed by done.
  by rewrite rstrip_cons_nonspace, rstrip_idemp.
Qed.
End strip_facts.

(** * Comparisons *)

Section lawful.
Context {A} (cmp : A -> A -> comparison) `{!Lawful cmp}.

Lemma cmp_eq_r a b c : cmp a b = Eq -> cmp c a = cmp c b.
Proof.
  intros E. rewrite (cmp_opp (cmp:=cmp) a c), (cmp_opp (cmp:=cmp) b c). f_equal.
  by apply (cmp_eq_l (cmp:=cmp)).
Qed.

Global Instance cmp_le_total : Total (cmp_le cmp).
Proof.
  intros a b. unfold cmp_le. rewrite (cmp_opp (cmp:=cmp) a b).
  destruct (cmp a b); simpl; [left | left | right]; discriminate.
Qed.

Global Instance cmp_le_trans : Transitive (cmp_le cmp).
Proof.
  intros a b c. unfold cmp_le. intros Hab Hbc.
  destruct (cmp a b) eqn:Eab; [| |done].
  - by rewrite (cmp_eq_l (cmp:=cmp) a b c Eab).
  - destruct (cmp b c) eqn:Ebc; [| |done].
    + rewrite (cmp_opp (cmp:=cmp) c b) in Ebc.
      assert (cmp c b = Eq) as E by (by destruct (cmp c b)).
      rewrite (cmp_eq_r c b a E). by rewrite Eab.
    + by rewrite (cmp_lt_trans (cmp:=cmp) a b c Eab Ebc).
Qed.

(** Both ways round means equal under the comparison. *)
Lemma cmp_le_antisym a b : cmp_le cmp a b -> cmp_le cmp b a -> cmp a b = Eq.
Proof.
  unfold cmp_le. rewrite (cmp_opp (cmp:=cmp) a b).
  by destruct (cmp a b).
Qed.
End lawful.

Global Instance Lawful_on {A B} (f : A -> B) cmp `{!Lawful cmp} : Lawful (cmp_on f cmp).
Proof.
  unfold cmp_on. split; intros.
  - apply cmp_opp.
  - by apply cmp_eq_l.
  - by eapply cmp_lt_trans.
Qed.

Global Instance Lawful_then {A} (c1 c2 : A -> A -> comparison)
  `{!Lawful c1, !Lawful c2} : Lawful (cmp_then c1 c2).
Proof.
  unfold cmp_then. split.
  - intros a b. rewrite (cmp_opp (cmp:=c1) a b), (cmp_opp (cmp:=c2) a b).
    by destruct (c1 a b).
  - intros a b c. destruct (c1 a b) eqn:E1; simpl; [|done..].
    intros E2. by rewrite (cmp_eq_l (cmp:=c1) a b c E1), (cmp_eq_l (cmp:=c2) a b c E2).
  - intros a b c. destruct (c1 a b) eqn:E1; simpl; [| |done].
    + intros E2. rewrite (cmp_eq_l (cmp:=c1) a b c E1).
      destruct (c1 b c); simpl; [|done..].
      by apply cmp_lt_trans.
    + intros _. destruct (c1 b c) eqn:E2; simpl; [| |done].
      * intros _. rewrite (cmp_opp (cmp:=c1) c b) in E2.
        assert (c1 c b = Eq) as E by (by destruct (c1 c b)).
        by rewrite (cmp_eq_r c1 c b a E), E1.
      * intros _. by rewrite (cmp_lt_trans (cmp:=c1) a b c E1 E2).
Qed.

Global Instance Lawful_N : Lawful N.compare.
Proof.
  split.
  - intros a b. apply N.compare_antisym.
  - intros a b c E. apply N.compare_eq_iff in E. by subst.
  - intros a b c. rewrite !N.compare_lt_iff. lia.
Qed.

Global Instance Lawful_Z : Lawful Z.compare.
Proof.
  split.
  - intros a b. apply Z.compare_antisym.
  - intros a b c E. apply Z.compare_eq_iff in E. by subst.
  - intros a b c. rewrite !Z.compare_lt_iff. lia.
Qed.

Lemma lex_compare_eq a b : lex_compare a b = Eq <-> a = b.
Proof.
  revert b. induction a as [|x a IH]; intros [|y b]; simpl; try done.
  destruct (x ?= y)%N eqn:E; simpl.
  - apply N.compare_eq_iff in E. subst. rewrite IH. split; congruence.
  - split; [done|]. intros [= -> _]. by rewrite N.compare_refl in E.
  - split; [done|]. intros [= -> _]. by rewrite N.compare_refl in E.
Qed.

Global Instance Lawful_lex : Lawful lex_compare.
Proof.
  split.
  - intros a. induction a as [|x a IH]; intros [|y b]; simpl; try done.
    rewrite (N.compare_antisym x y), IH. by destruct (x ?= y)%N.
  - intros a b c E. apply lex_compare_eq in E. by subst.
  - intros a. induction a as [|x a IH]; intros [|y b] [|z c]; simpl; try done.
    destruct (x ?= y)%N eqn:E1; simpl; [| |done].
    + apply N.compare_eq_iff in E1. subst y.
      destruct (x ?= z)%N; simpl; [|done..]. apply IH.
    + intros _. destruct (y ?= z)%N eqn:E2; simpl; [| |done].
      * apply N.compare_eq_iff in E2. subst z. by rewrite E1.
      * intros _. by rewrite (cmp_lt_trans (cmp:=N.compare) x y z E1 E2).
Qed.

Global Instance Lawful_binary : Lawful binary_compare.
Proof. unfold binary_compare. apply _. Qed.

(** *** NOCASE *)

(** The folding of NOCASE is the table of the 26 letters: nothing else is
    folded, and each capital goes to its own small letter. *)
Lemma nocase_fold_small c : nocase_fold c = ascii_small c.
Proof.
  destruct (decide (c < 128)%N) as [Hc|Hc].
  - assert (Forall (fun c => nocase_fold c = ascii_small c)
                   (N.of_nat <$> List.seq 0 128)) as Hall by by_evaluation.
    rewrite Forall_forall in Hall. apply Hall.
    apply list_elem_of_fmap. exists (N.to_nat c). split; [lia|].
    apply elem_of_seq. lia.
  - unfold nocase_fold, ascii_small.
    assert ((65 <=? c) && (c <=? 90) = false)%N as ->
      by (apply andb_false_iff; right; apply N.leb_gt; lia).
    let t := eval vm_compute in ascii_letters in change ascii_letters with t.
    unfold table_lookup.
    repeat match goal with
           | |- context [(?k =? c)%N] => destruct (N.eqb_spec k c); [lia|]
           end.
    reflexivity.
Qed.

Lemma nocase_fold_nonzero c : c <> 0%N -> (nocase_fold c ?= 0)%N = Gt.
Proof.
  intros Hc. apply N.compare_gt_iff. unfold nocase_fold.
  destruct (_ && _); lia.
Qed.

Lemma then_cmp_assoc c1 c2 c3 :
  then_cmp (then_cmp c1 c2) c3 = then_cmp c1 (then_cmp c2 c3).
Proof. by destruct c1. Qed.

(** The loop of NOCASE computes the comparison of courses. *)
Lemma nocase_compare_spec a b : nocase_compare a b = ascii_caseless_compare a b.
Proof.
  unfold ascii_caseless_compare. revert b.
  induction a as [|x a IH]; intros [|y b].
  - done.
  - simpl. by destruct (y =? 0)%N.
  - simpl. by destruct (x =? 0)%N.
  - cbn [nocase_compare caseless_prefix bytes_after_nul].
    destruct (N.eqb_spec x 0) as [->|Hx]; destruct (N.eqb_spec y 0) as [->|Hy];
      cbn [lex_compare].
    + by rewrite N.compare_refl.
    + rewrite <- nocase_fold_small.
      by rewrite (N.compare_antisym (nocase_fold y) 0), nocase_fold_nonzero.
    + rewrite <- nocase_fold_small.
      change (nocase_fold 0) with 0%N. by rewrite nocase_fold_nonzero.
    + rewrite IH, <- !nocase_fold_small. by rewrite then_cmp_assoc.
Qed.

(** The comparison on a few texts, as SQLite answers on them: case counts
    for nothing in ASCII, an accented capital is not its small letter, and
    what follows a NUL counts by its length only. *)
Lemma nocase_compare_examples :
  nocase_compare (str "MATH") (str "math") = Eq
  /\ nocase_compare (str "Zeta") (str "alpha") = Gt
  /\ nocase_compare [201%N] [233%N] = Lt
  /\ nocase_compare [97%N; 0%N; 99%N] [97%N; 0%N; 98%N] = Eq
  /\ nocase_compare [97%N; 0%N] [97%N] = Gt
  /\ nocase_compare [97%N; 0%N; 233%N] [97%N; 0%N; 122%N; 122%N] = Eq.
Proof. split_and!; reflexivity. Qed.

Global Instance Lawful_nocase : Lawful nocase_compare.
Proof.
  pose proof (Lawful_then (cmp_on caseless_prefix lex_compare)
                          (cmp_on bytes_after_nul N.compare)) as L.
  assert (forall a b, nocase_compare a b
                      = cmp_then (cmp_on caseless_prefix lex_compare)
                                 (cmp_on bytes_after_nul N.compare) a b) as E
    by (intros; apply nocase_compare_spec).
  split.
  - intros a b. rewrite !E. apply (cmp_opp (Lawful:=L)).
  - intros a b c. rewrite !E. apply (cmp_eq_l (Lawful:=L)).
  - intros a b c. rewrite !E. apply (cmp_lt_trans (Lawful:=L)).
Qed.

Global Instance Lawful_distinct_course : Lawful distinct_course_compare.
Proof. apply (Lawful_then nocase_compare binary_compare). Qed.

(** The order of distinct courses tells any two texts apart. *)
Lemma distinct_course_compare_eq a b : distinct_course_compare a b = Eq -> a = b.
Proof.
  unfold distinct_course_compare. destruct (nocase_compare a b); simpl; [|done..].
  apply lex_compare_eq.
Qed.

Lemma courses_in_order_spec a b :
  cmp_le distinct_course_compare a b <-> courses_in_order a b.
Proof.
  unfold cmp_le, distinct_course_compare, courses_in_order.
  rewrite nocase_compare_spec.
  destruct (ascii_caseless_compare a b); simpl; intuition discriminate.
Qed.

Lemma row_compare_unfold :
  row_compare =
  cmp_then (cmp_on r_day binary_compare)
    (cmp_then (cmp_on r_course nocase_compare)
       (cmp_then (cmp_on r_done Z.compare) (cmp_on r_id Z.compare))).
Proof. reflexivity. Qed.

Global Instance Lawful_row : Lawful row_compare.
Proof. rewrite row_compare_unfold. apply _. Qed.

Global Instance row_le_total : Total row_le.
Proof. unfold row_le. apply _. Qed.

Global Instance row_le_trans : Transitive row_le.
Proof. unfold row_le. apply _. Qed.

(** The ORDER BY clause is the order of the specification. *)
Lemma row_le_spec a b : row_le a b <-> in_order a b.
Proof.
  unfold in_order, row_le, cmp_le, row_compare.
  rewrite nocase_compare_spec. unfold then_cmp, binary_compare.
  destruct (lex_compare (r_day a) (r_day b)) eqn:Ed.
  - apply lex_compare_eq in Ed.
    destruct (ascii_caseless_compare (r_course a) (r_course b)).
    + destruct (Z.compare_spec (r_done a) (r_done b)).
      * unfold Z.le. intuition (try discriminate; try lia).
      * intuition (try discriminate; try lia).
      * intuition (try discriminate; try lia).
    + intuition discriminate.
    + intuition (try discriminate; try lia).
  - intuition discriminate.
  - split; [done|]. intros [?|[E _]]; [done|].
    apply lex_compare_eq in E. congruence.
Qed.

Lemma StronglySorted_weaken {A} (R S : relation A) l :
  (forall x y, R x y -> S x y) -> StronglySorted R l -> StronglySorted S l.
Proof.
  intros HRS. induction 1 as [|x l _ IH Hx]; constructor; [done|].
  eapply Forall_impl; [exact Hx|]. intros y. apply HRS.
Qed.

(** Rows that tie under the ORDER BY have the same id. *)
Lemma row_compare_Eq_id a b : row_compare a b = Eq -> r_id a = r_id b.
Proof.
  unfold row_compare, then_cmp.
  destruct (binary_compare _ _); [|done..].
  destruct (nocase_compare _ _); [|done..].
  destruct (r_done a ?= r_done b); [|done..].
  apply Z.compare_eq_iff.
Qed.

(** * The store *)

Section store_facts.
Implicit Types (d : DB) (l : list Lesson) (r : Lesson) (i : Z).

Lemma max_id_ge l r : r ∈ l -> lesson_id r <= max_id l.
Proof.
  induction 1 as [r l|r r' l _ IH]; simpl; lia.
Qed.

Lemma fresh_id_new d : fresh_id d ∉ lesson_id <$> rows d.
Proof.
  intros (r & E & Hr)%list_elem_of_fmap.
  apply max_id_ge in Hr. unfold fresh_id in E. lia.
Qed.

(** With ids unique, the id determines the record. *)
Lemma same_id_same_lesson l r1 r2 :
  NoDup (lesson_id <$> l) -> r1 ∈ l -> r2 ∈ l ->
  lesson_id r1 = lesson_id r2 -> r1 = r2.
Proof.
  induction l as [|a l IH]; simpl; [by intros _ ?%elem_of_nil|].
  rewrite NoDup_cons. intros [Ha Hl] H1 H2 E.
  apply elem_of_cons in H1 as [->|H1]; apply elem_of_cons in H2 as [->|H2].
  - done.
  - destruct Ha. rewrite E. by apply list_elem_of_fmap_2.
  - destruct Ha. rewrite <-E. by apply list_elem_of_fmap_2.
  - by apply IH.
Qed.

Lemma sql_update_ids set i l :
  (forall r, lesson_id (set r) = lesson_id r) ->
  lesson_id <$> sql_update set i l = lesson_id <$> l.
Proof.
  intros Hset. unfold sql_update. rewrite <-list_fmap_compose.
  apply list_fmap_ext. intros _ r _. simpl. by case_bool_decide.
Qed.

Lemma sql_update_absent set i l :
  i ∉ lesson_id <$> l -> sql_update set i l = l.
Proof.
  intros Hi. unfold sql_update. rewrite <-(list_fmap_id l) at 2.
  apply list_fmap_ext. intros _ r Hr%list_elem_of_lookup_2. simpl.
  case_bool_decide as E; [|done].
  destruct Hi. rewrite <-E. by apply list_elem_of_fmap_2.
Qed.

Lemma find_lesson_update set i j l s :
  (forall r, lesson_id (set r) = lesson_id r) ->
  find_lesson (mkDB (sql_update set i l) s) j
  = (fun r => if bool_decide (lesson_id r = i) then set r else r)
      <$> find_lesson (mkDB l s) j.
Proof.
  intros Hset. unfold find_lesson, sql_update. simpl.
  induction l as [|a l IH]; [done|].
  rewrite fmap_cons, !filter_cons.
  assert (lesson_id (if bool_decide (lesson_id a = i) then set a else a) = lesson_id a)
    as -> by (by case_bool_decide).
  by destruct (decide (lesson_id a = j)).
Qed.

Lemma find_lesson_Some d i r :
  find_lesson d i = Some r -> r ∈ rows d /\ lesson_id r = i.
Proof.
  unfold find_lesson. intros Hh.
  assert (r ∈ filter (fun r => lesson_id r = i) (rows d)) as Hr.
  { destruct (filter _ _) as [|x t]; [done|]. injection Hh as ->. left. }
  apply list_elem_of_filter in Hr. tauto.
Qed.

(** *** The WHERE clause *)

Lemma pystr_eqb_true a b : pystr_eqb a b = true <-> a = b.
Proof. unfold pystr_eqb. by rewrite bool_decide_eq_true. Qed.

Lemma one_filter_spec (f : option pystr) sentinel mk (get : Lesson -> pystr) r :
  (forall p, eval_cond (mk p) r = pystr_eqb (get r) p) ->
  accepts (if truthy f && negb (bool_decide (f = Some sentinel))
           then [mk (default [] f)] else []) r = true
  <-> unrestricted f sentinel \/ f = Some (get r).
Proof.
  intros Hmk. unfold unrestricted, accepts.
  destruct f as [[|x p]|]; simpl.
  - split; [intros _; left; right; by left | done].
  - case_bool_decide as E; simpl.
    + split; [intros _; left; right; by right | done].
    + rewrite Hmk, andb_true_r, pystr_eqb_true. split.
      * intros ->. by right.
      * intros [[?|[?|?]]|?]; congruence.
  - split; [intros _; left; by left | done].
Qed.

Lemma accepts_app w1 w2 r : accepts (w1 ++ w2) r = accepts w1 r && accepts w2 r.
Proof. apply forallb_app. Qed.

Lemma query_where_spec day_ course_ u r :
  accepts (query_where day_ course_ u) r = true <-> selected day_ course_ u r.
Proof.
  unfold query_where, selected.
  rewrite !accepts_app, !andb_true_iff.
  rewrite (one_filter_spec day_ TUTTE DayEq day) by done.
  rewrite (one_filter_spec course_ TUTTI CourseEq course) by done.
  destruct u; simpl; rewrite ?andb_true_r, ?bool_decide_eq_true;
    intuition discriminate.
Qed.

Lemma query_unsorted d day_ course_ u :
  query d day_ course_ u ≡ₚ select_row <$> filter (selected day_ course_ u) (rows d).
Proof.
  unfold query. rewrite merge_sort_Permutation.
  assert (filter (fun r => accepts (query_where day_ course_ u) r) (rows d)
          = filter (selected day_ course_ u) (rows d)) as ->; [|done].
  apply list_filter_iff.
  intros r. rewrite <-query_where_spec. apply Is_true_true.
Qed.

Lemma elem_of_query d day_ course_ u x :
  x ∈ query d day_ course_ u
  <-> exists r, r ∈ rows d /\ x = select_row r /\ selected day_ course_ u r.
Proof.
  rewrite query_unsorted, list_elem_of_fmap.
  split.
  - intros (r & -> & [Hs Hr]%list_elem_of_filter). eauto.
  - intros (r & Hr & -> & Hs). exists r. split; [done|].
    by apply list_elem_of_filter.
Qed.

Lemma query_sorted d day_ course_ u : Sorted row_le (query d day_ course_ u).
Proof. apply Sorted_merge_sort; apply _. Qed.
End store_facts.

(** * query *)

(** *** Insertion order *)

Section insertion_order.
Implicit Types (d : DB) (news : list NewLesson) (r : Lesson).

(** What a record shows, and what an insert will show. *)
Lemma shown_add_all news d :
  (fun r => shown (select_row r)) <$> rows (add_all news d)
  = ((fun r => shown (select_row r)) <$> rows d)
    ++ ((fun n => (strip (n_title n), strip (n_course n), strip (n_day n),
                   default 0 (n_done n))) <$> news).
Proof.
  revert d. induction news as [|n news IH]; intros d; simpl.
  - by rewrite app_nil_r.
  - rewrite IH. unfold add_new, add_lesson, int. simpl.
    by rewrite fmap_app, <- app_assoc.
Qed.

Lemma shown_add_all_Permutation news news' d :
  news' ≡ₚ news ->
  (fun r => shown (select_row r)) <$> rows (add_all news' d)
  ≡ₚ (fun r => shown (select_row r)) <$> rows (add_all news d).
Proof. intros Hp. rewrite !shown_add_all. by rewrite Hp. Qed.

Lemma fmap_filter_through {A B} (f : A -> B) (P : A -> Prop) (Q : B -> Prop)
    `{forall x, Decision (P x), forall y, Decision (Q y)} (l : list A) :
  (forall x, P x <-> Q (f x)) -> f <$> filter P l = filter Q (f <$> l).
Proof.
  intros HPQ. induction l as [|a l IH]; [done|].
  rewrite fmap_cons, !filter_cons.
  destruct (decide (P a)) as [Ha|Ha]; destruct (decide (Q (f a))) as [Hb|Hb];
    rewrite ?fmap_cons, IH; try done; by apply HPQ in Ha || apply HPQ in Hb.
Qed.

(** The filters read only what a row shows. *)
Lemma shown_query d day_ course_ u :
  shown <$> query d day_ course_ u
  ≡ₚ filter (fun v => row_selected day_ course_ u (mkRow 0 v.1.1.1 v.1.1.2 v.1.2 v.2))
       ((fun r => shown (select_row r)) <$> rows d).
Proof.
  rewrite query_unsorted, <- list_fmap_compose.
  by rewrite (fmap_filter_through (shown ∘ select_row) _
                (fun v => row_selected day_ course_ u
                            (mkRow 0 v.1.1.1 v.1.1.2 v.1.2 v.2))).
Qed.

(** The ORDER BY without its last term, on what rows show. *)
Lemma shown_sorted d day_ course_ u :
  StronglySorted
    (cmp_le (cmp_then (cmp_on (fun v => v.1.2) binary_compare)
               (cmp_then (cmp_on (fun v => v.1.1.2) nocase_compare)
                         (cmp_on (fun v => v.2) Z.compare))))
    (shown <$> query d day_ course_ u).
Proof.
  apply (StronglySorted_fmap _ row_le).
  - intros x y. unfold row_le, cmp_le, row_compare, cmp_then, cmp_on. simpl.
    destruct (binary_compare _ _); [|done..].
    destruct (nocase_compare _ _); [|done..].
    by destruct (r_done x ?= r_done y).
  - apply Sorted_StronglySorted; [apply _ | apply query_sorted].
Qed.

Lemma query_insertion_order d news news' day_ course_ u :
  news' ≡ₚ news -> no_ties (add_all news d) ->
  shown <$> query (add_all news' d) day_ course_ u
  = shown <$> query (add_all news d) day_ course_ u.
Proof.
  intros Hp Hties.
  assert (shown <$> query (add_all news' d) day_ course_ u
          ≡ₚ shown <$> query (add_all news d) day_ course_ u) as Hperm.
  { rewrite !shown_query. by rewrite (shown_add_all_Permutation news news'). }
  eapply StronglySorted_unique_strong; [|apply shown_sorted..|exact Hperm].
  intros v1 v2 H1 H2 H12 H21. rewrite Hperm in H1.
  apply list_elem_of_fmap in H1 as (x1 & -> & (r1 & Hr1 & -> & _)%elem_of_query).
  apply list_elem_of_fmap in H2 as (x2 & -> & (r2 & Hr2 & -> & _)%elem_of_query).
  unfold no_ties in Hties. rewrite Forall_forall in Hties.
  specialize (Hties r1 Hr1). rewrite Forall_forall in Hties.
  apply (Hties r2 Hr2).
  pose proof (cmp_le_antisym _ _ _ H12 H21) as E.
  unfold cmp_then, cmp_on in E. simpl in E. unfold same_rank.
  rewrite <- nocase_compare_spec.
  destruct (binary_compare (day r1) (day r2)) eqn:Ed; [|done..].
  apply lex_compare_eq in Ed.
  destruct (nocase_compare (course r1) (course r2)); [|done..].
  simpl in E. by apply Z.compare_eq_iff in E.
Qed.
End insertion_order.

(** C1.  Whatever the store and the filters, the rows [query] returns are
    in order: day ascending (as text), then course ascending in the
    comparison of courses, which is that of the NOCASE collation: the case
    of the 26 ASCII letters is ignored, every other letter is a letter of
    its own, and the comparison stops at a NUL; then done ascending (0, not
    done, before 1, done), then id ascending; every earlier row may come
    before every later one.  The result does not depend on the order in
    which the table holds its records: two stores with the same records,
    each id being unique, give the same sequence for the same filters.
    And the same lessons inserted in another order are shown in the same
    sequence, ids apart, when no two records that show different things
    have the same day, course rank and done; between such records the id
    decides, which follows the order of insertion. *)
Theorem C1_query_sorted_reproducible (d : DB) (day_ course_ : option pystr) (u : bool) :
  StronglySorted in_order (query d day_ course_ u)
  /\ (forall d' : DB,
        NoDup (lesson_id <$> rows d) -> rows d' ≡ₚ rows d ->
        query d' day_ course_ u = query d day_ course_ u)
  /\ (forall news news' : list NewLesson,
        news' ≡ₚ news -> no_ties (add_all news d) ->
        shown <$> query (add_all news' d) day_ course_ u
        = shown <$> query (add_all news d) day_ course_ u).
Proof.
  split_and!.
  - apply (StronglySorted_weaken row_le); [intros x y; apply row_le_spec|].
    apply Sorted_StronglySorted; [apply _ | apply query_sorted].
  - intros d' Hnd Hp.
    apply (Sorted_unique_strong row_le); [|apply query_sorted..|].
    + intros x1 x2 H1 H2 H12 H21.
      apply elem_of_query in H1 as (r1 & Hr1 & -> & _).
      apply elem_of_query in H2 as (r2 & Hr2 & -> & _).
      f_equal. apply (same_id_same_lesson (rows d)); [done| |done|].
      * by rewrite <-Hp.
      * apply (row_compare_Eq_id (select_row r1) (select_row r2)).
        by apply (cmp_le_antisym row_compare).
    + by rewrite !query_unsorted, Hp.
  - intros news news'. apply query_insertion_order.
Qed.

Lemma C1_query_sorted_reproducible_witness :
  query three_lessons_shuffled None None false = query three_lessons None None false
  /\ shown <$> query (add_all [new_history; new_logic] three_lessons) None None false
     = shown <$> query (add_all [new_logic; new_history] three_lessons) None None false.
Proof.
  split.
  - apply (proj1 (proj2 (C1_query_sorted_reproducible three_lessons None None false))
                 three_lessons_shuffled); by_evaluation.
  - apply (proj2 (proj2 (C1_query_sorted_reproducible three_lessons None None false))
                 [new_logic; new_history] [new_history; new_logic]).
    + apply perm_swap.
    + by_evaluation.
Defined.

(** C1, as the specification words it, fails in two places.  Courses are
    not compared without regard to case outside ASCII: of two lessons of
    one day whose courses are the small and the capital e with an acute
    accent, the done one comes first, because the capital sorts before the
    small letter, where a comparison that ignores case would let done
    decide.  And the sequence does depend on the order of insertion where
    the ORDER BY ties up to the id: two lessons of the same day and
    course, both not done, are shown in the order they were added. *)
Lemma C1_accents_and_insertion_order :
  (query accent_lessons None None false
   = [mkRow 2 (str "Etude 2") [e_acute_capital] (str "2025-01-05") 1;
      mkRow 1 (str "Etude 1") [e_acute_small] (str "2025-01-05") 0]
   /\ case_insensitive_compare [e_acute_capital] [e_acute_small] = Eq
   /\ ~ StronglySorted case_insensitive_order (query accent_lessons None None false))
  /\ (new_geometry :: [new_algebra] ≡ₚ new_algebra :: [new_geometry]
      /\ r_title <$> query (add_all [new_algebra; new_geometry] empty_db) None None false
         = [str "Algebra"; str "Geometry"]
      /\ r_title <$> query (add_all [new_geometry; new_algebra] empty_db) None None false
         = [str "Geometry"; str "Algebra"]).
Proof.
  split_and!; try (vm_compute; reflexivity).
  - by_evaluation.
  - apply perm_swap.
Qed.

(** C2.  [query] returns exactly the records the three filters select, each
    as often as the table holds it: no restriction on the day when the day
    filter is absent, empty or "TUTTE", otherwise the day equals the filter;
    the same for the course with "TUTTI"; and done = 0 when only_undone is
    set. *)
Theorem C2_query_selects_exactly (d : DB) (day_ course_ : option pystr) (u : bool) :
  query d day_ course_ u ≡ₚ select_row <$> filter (selected day_ course_ u) (rows d)
  /\ forall x : Row,
       x ∈ query d day_ course_ u
       <-> exists r, r ∈ rows d /\ x = select_row r /\ selected day_ course_ u r.
Proof.
  split; [apply query_unsorted | intros x; apply elem_of_query].
Qed.

(** C3.  After [add_lesson], a query without filters returns a row with the
    trimmed title, course and day that were passed, under an id no earlier
    record has; its done is the argument, and 0 when the argument is
    omitted. *)
Theorem C3_add_then_query (now : pystr) (d : DB) (t c dy : pystr) (dn : option Z) :
  exists x : Row,
    x ∈ query (add_lesson now d t c dy dn) None None false
    /\ r_title x = strip t /\ r_course x = strip c /\ r_day x = strip dy
    /\ r_done x = match dn with Some v => v | None => 0 end
    /\ r_id x ∉ lesson_id <$> rows d.
Proof.
  set (r := mkLesson (fresh_id d) (strip t) (strip c) (strip dy) (int (default 0 dn)) now).
  exists (select_row r). split.
  - apply elem_of_query. exists r. split; [|split; [done|]].
    + unfold add_lesson. simpl. apply elem_of_app. right. by left.
    + unfold selected, unrestricted. split_and!; [by left; left..|done].
  - simpl. split_and!; [done..|by destruct dn|apply fresh_id_new].
Qed.

(** * toggle, update, delete *)

(** C5.  Toggling an existing id twice gives the record its done flag back:
    the truth value the program reads from the column is the original one,
    no other field has moved, and the record is the original record when
    the column held 0 or 1, the values the program writes. *)
Theorem C5_toggle_twice (d : DB) (i : Z) (r : Lesson) :
  find_lesson d i = Some r ->
  exists r2 : Lesson,
    find_lesson (toggle_done (toggle_done d i) i) i = Some r2
    /\ is_done r2 = is_done r
    /\ (lesson_id r2, title r2, course r2, day r2, created_at r2)
       = (lesson_id r, title r, course r, day r, created_at r)
    /\ (done r = 0 \/ done r = 1 -> r2 = r).
Proof.
  intros Hf. destruct (find_lesson_Some _ _ _ Hf) as [_ Hi].
  destruct d as [l s]. unfold toggle_done, int. simpl.
  rewrite !find_lesson_update by done. rewrite Hf. simpl.
  rewrite (bool_decide_true _ Hi). simpl. rewrite (bool_decide_true _ Hi).
  eexists. split; [done|]. simpl.
  split; [|split; [done|]].
  - unfold is_done, bool_of_int, flip_done. simpl.
    repeat case_bool_decide; done || lia.
  - destruct r as [ri rt rc rd rdn rca]. simpl.
    intros [->| ->]; reflexivity.
Qed.

Lemma C5_toggle_twice_witness :
  exists r2 : Lesson,
    find_lesson (toggle_done (toggle_done three_lessons 2) 2) 2 = Some r2
    /\ is_done r2 = is_done geometry
    /\ (lesson_id r2, title r2, course r2, day r2, created_at r2)
       = (lesson_id geometry, title geometry, course geometry, day geometry,
          created_at geometry)
    /\ (done geometry = 0 \/ done geometry = 1 -> r2 = geometry).
Proof.
  apply (C5_toggle_twice three_lessons 2 geometry). vm_compute. reflexivity.
Defined.

(** C6.  [toggle_done] touches nothing but the done column of the records
    with the given id: the table keeps its records in place, each with its
    id, title, course, day and created_at; a record with the id has its
    done flipped, every other record is unchanged; the AUTOINCREMENT
    counter stays. *)
Theorem C6_toggle_frame (d : DB) (i : Z) :
  Forall2 (fun r r' =>
             (lesson_id r', title r', course r', day r', created_at r')
             = (lesson_id r, title r, course r, day r, created_at r)
             /\ (lesson_id r = i -> done r' = flip_done (done r))
             /\ (lesson_id r <> i -> r' = r))
          (rows d) (rows (toggle_done d i))
  /\ seq (toggle_done d i) = seq d.
Proof.
  split; [|done].
  unfold toggle_done, sql_update, int. simpl.
  rewrite Forall2_fmap_r. apply Forall_Forall2_diag, Forall_forall.
  intros r _. simpl. case_bool_decide; simpl; split_and!; done.
Qed.

(** C7.  After [delete_lesson] no query returns a row with the deleted id;
    and on an id the table does not hold, [update_lesson], [toggle_done]
    and [delete_lesson] return the store as it was.  None of the three has
    an error outcome: an UPDATE or DELETE that matches no record is not an
    error, and the methods raise nothing of their own. *)
Theorem C7_delete_and_absent_ids (d : DB) (i : Z) :
  (forall day_ course_ u x, x ∈ query (delete_lesson d i) day_ course_ u -> r_id x <> i)
  /\ (i ∉ lesson_id <$> rows d ->
      (forall t c dy dn, update_lesson d i t c dy dn = d)
      /\ toggle_done d i = d
      /\ delete_lesson d i = d).
Proof.
  split.
  - intros day_ course_ u x (r & Hr & -> & _)%elem_of_query.
    unfold delete_lesson in Hr. simpl in Hr.
    by apply list_elem_of_filter in Hr as [Hne _].
  - intros Hi. destruct d as [l s]. simpl in Hi.
    unfold update_lesson, toggle_done, delete_lesson, int. simpl.
    split_and!; intros; f_equal; try by apply sql_update_absent.
    induction l as [|a l IH]; [done|].
    rewrite fmap_cons, not_elem_of_cons in Hi. destruct Hi as [Ha Hl].
    rewrite filter_cons_True by done. f_equal. by apply IH.
Qed.

Lemma C7_delete_and_absent_ids_witness :
  (forall t c dy dn, update_lesson three_lessons 7 t c dy dn = three_lessons)
  /\ toggle_done three_lessons 7 = three_lessons
  /\ delete_lesson three_lessons 7 = three_lessons.
Proof.
  apply (proj2 (C7_delete_and_absent_ids three_lessons 7)). by_evaluation.
Defined.

(** * list_courses *)

Lemma elem_of_list_courses d c :
  c ∈ list_courses d <-> exists r, r ∈ rows d /\ course r = c.
Proof.
  unfold list_courses.
  rewrite merge_sort_Permutation, elem_of_remove_dups, list_elem_of_fmap.
  split; intros (r & ? & ?); eauto.
Qed.

Lemma list_courses_sorted d :
  StronglySorted (cmp_le distinct_course_compare) (list_courses d).
Proof. apply StronglySorted_merge_sort; apply _. Qed.

(** C8.  [list_courses] returns every course value the table holds, exactly
    as stored, each once; values that differ only in the case of their
    letters are different values and are all returned.  They come in
    ascending order in the comparison of courses, which is that of the
    NOCASE collation: the case of the 26 ASCII letters is ignored and of
    no other letter; values that tie there come in the order of their
    text.  The list depends on the course values the table holds and on
    nothing else. *)
Theorem C8_list_courses (d : DB) :
  NoDup (list_courses d)
  /\ (forall c : pystr, c ∈ list_courses d <-> exists r, r ∈ rows d /\ course r = c)
  /\ StronglySorted courses_in_order (list_courses d)
  /\ (forall d' : DB,
        (forall c : pystr, c ∈ course <$> rows d' <-> c ∈ course <$> rows d) ->
        list_courses d' = list_courses d).
Proof.
  split_and!.
  - unfold list_courses. rewrite merge_sort_Permutation. apply NoDup_remove_dups.
  - apply elem_of_list_courses.
  - apply (StronglySorted_weaken (cmp_le distinct_course_compare));
      [intros a b; apply courses_in_order_spec|].
    apply list_courses_sorted.
  - intros d' Hsame.
    eapply StronglySorted_unique_strong; [|apply list_courses_sorted..|].
    + intros a b _ _ Hab Hba. apply distinct_course_compare_eq.
      by apply (cmp_le_antisym distinct_course_compare).
    + unfold list_courses. rewrite !merge_sort_Permutation.
      apply NoDup_Permutation; [apply NoDup_remove_dups..|].
      intros c. by rewrite !elem_of_remove_dups.
Qed.

(** C8, as the specification words it, fails outside ASCII: of the two
    courses "Éb" and "éa" the first is listed first, because the capital
    sorts before the small letter, where a comparison that ignores case
    puts "éa" first. *)
Lemma C8_accents_not_folded :
  list_courses accent_courses
  = [[e_acute_capital; 98%N]; [e_acute_small; 97%N]]
  /\ case_insensitive_compare [e_acute_capital; 98%N] [e_acute_small; 97%N] = Gt
  /\ ~ StronglySorted (cmp_le case_insensitive_compare) (list_courses accent_courses).
Proof.
  split_and!; try (vm_compute; reflexivity). by_evaluation.
Qed.

(** * The sentinels *)

(** C10.  The course filter "TUTTI" restricts nothing, whatever the other
    filters, and no filter value makes [query] compare the course with
    "TUTTI": a query that returns a lesson of the course "TUTTI" is a query
    without a course restriction.  The same holds for the day and
    "TUTTE". *)
Theorem C10_sentinels_never_exact (d : DB) (day_ course_ : option pystr) (u : bool) :
  query d day_ (Some TUTTI) u = query d day_ None u
  /\ query d (Some TUTTE) course_ u = query d None course_ u
  /\ (CourseEq TUTTI ∉ query_where day_ course_ u)
  /\ (DayEq TUTTE ∉ query_where day_ course_ u)
  /\ (forall x, x ∈ query d day_ course_ u -> r_course x = TUTTI ->
        query d day_ course_ u = query d day_ None u)
  /\ (forall x, x ∈ query d day_ course_ u -> r_day x = TUTTE ->
        query d day_ course_ u = query d None course_ u).
Proof.
  assert (forall f s (mk : pystr -> Cond), Inj (=) (=) mk ->
            mk s ∉ (if truthy f && negb (bool_decide (f = Some s))
                    then [mk (default [] f)] else [])) as Hno.
  { intros f s mk Hinj. destruct f as [[|x p]|]; simpl; try apply not_elem_of_nil.
    case_bool_decide as E; simpl; [apply not_elem_of_nil|].
    intros ->%list_elem_of_singleton%(inj mk). done. }
  assert (Inj (=) (=) CourseEq) as HC by (by intros ?? [= ->]).
  assert (Inj (=) (=) DayEq) as HD by (by intros ?? [= ->]).
  assert (CourseEq TUTTI ∉ query_where day_ course_ u) as HnoC.
  { unfold query_where. rewrite !elem_of_app. intros [Hin|[Hin|Hin]].
    - destruct (truthy day_ && _); [|by apply elem_of_nil in Hin].
      by apply list_elem_of_singleton in Hin.
    - by apply Hno in Hin.
    - destruct u; [|by apply elem_of_nil in Hin].
      by apply list_elem_of_singleton in Hin. }
  assert (DayEq TUTTE ∉ query_where day_ course_ u) as HnoD.
  { unfold query_where. rewrite !elem_of_app. intros [Hin|[Hin|Hin]].
    - by apply Hno in Hin.
    - destruct (truthy course_ && _); [|by apply elem_of_nil in Hin].
      by apply list_elem_of_singleton in Hin.
    - destruct u; [|by apply elem_of_nil in Hin].
      by apply list_elem_of_singleton in Hin. }
  split_and!; try done.
  - intros x (r & Hr & -> & Hsel)%elem_of_query Hc. simpl in Hc.
    unfold query, query_where.
    destruct course_ as [[|a p]|]; simpl; try done.
    destruct (decide (Some (a :: p) = Some TUTTI)) as [E|E].
    { by rewrite (bool_decide_true _ E). }
    exfalso. destruct Hsel as (_ & [[?|[?|?]]|Hx] & _); [done..|].
    rewrite Hc in Hx. done.
  - intros x (r & Hr & -> & Hsel)%elem_of_query Hc. simpl in Hc.
    unfold query, query_where.
    destruct day_ as [[|a p]|]; simpl; try done.
    destruct (decide (Some (a :: p) = Some TUTTE)) as [E|E].
    { by rewrite (bool_decide_true _ E). }
    exfalso. destruct Hsel as ([[?|[?|?]]|Hx] & _); [done..|].
    rewrite Hc in Hx. done.
Qed.

Lemma C10_sentinels_never_exact_witness :
  query with_tutti None (Some TUTTI) false = query with_tutti None None false.
Proof.
  apply (proj1 (proj2 (proj2 (proj2 (proj2
           (C10_sentinels_never_exact with_tutti None (Some TUTTI) false))))))
    with (x := select_row tutti_lesson).
  - by_evaluation.
  - reflexivity.
Defined.

(** * The program *)

(** ** Sequencing *)

Lemma seq_act_fst (a b : Act) st : ((a >>> b) st).1 = (b (a st).1).1.
Proof. unfold seq_act. destruct (a st) as [st1 e1]. simpl. by destruct (b st1). Qed.

Section keeps.
Context {X} (p : App -> X).

Lemma keeps_seq a b : keeps p a -> keeps p b -> keeps p (a >>> b).
Proof. intros Ha Hb st. by rewrite seq_act_fst, Hb, Ha. Qed.

Lemma keeps_skip : keeps p skip.
Proof. done. Qed.

Lemma keeps_emit e : keeps p (emit e).
Proof. done. Qed.

(** A field the filter variables, the combobox and the table widget do
    not hold is kept by every callback that only refreshes the view. *)
Hypothesis keeps_filters : forall d c u, keeps p (set_filters d c u).
Hypothesis keeps_cb_values : forall v, keeps p (set_cb_values v).
Hypothesis keeps_tree : forall t sel n, keeps p (set_tree t sel n).

Lemma keeps_refresh_courses : keeps p _refresh_courses.
Proof.
  intros st. unfold _refresh_courses.
  apply keeps_seq; [apply keeps_emit|].
  apply keeps_seq; [apply keeps_cb_values|].
  case_bool_decide; [apply keeps_skip | apply keeps_filters].
Qed.

Lemma keeps_load_table : keeps p _load_table.
Proof.
  intros st. unfold _load_table.
  apply keeps_seq; [apply keeps_emit|].
  apply keeps_seq; [apply keeps_tree | apply keeps_refresh_courses].
Qed.

Lemma keeps_reload_all : keeps p _reload_all.
Proof. apply keeps_seq; [apply keeps_refresh_courses | apply keeps_load_table]. Qed.
End keeps.

(** ** What the dialog hands over *)

Section program_facts.
Context `{Platform}.

Lemma validate_iso_date_strip s :
  validate_iso_date (strip s) = validate_iso_date s.
Proof. unfold validate_iso_date. by rewrite strip_idemp. Qed.

Lemma save_spec dlg :
  dialog_ok dlg ->
  (_save dlg = (dlg, [ShowError "Inserisci il nome della lezione."])
   /\ strip (e_title dlg) = [])
  \/ (exists msg, _save dlg = (dlg, [ShowError msg]) /\ strip (e_title dlg) <> [])
  \/ (exists q, _save dlg
                = (mkDialog (e_title dlg) (e_course dlg) (e_day dlg) (var_done dlg)
                            (Some q) true, [])
                /\ payload_ok q).
Proof.
  intros (_ & _ & Hdone). unfold _save.
  case_bool_decide as Ht; [by left|]. right.
  case_bool_decide as Hc; [left; eauto|].
  destruct (validate_iso_date (strip (e_day dlg))) eqn:Hd; simpl; [|left; eauto].
  right. eexists. split; [done|].
  unfold payload_ok, int. simpl.
  by rewrite !strip_idemp.
Qed.

Lemma dialog_step_spec clk e dlg :
  dialog_ok dlg ->
  let '(dlg', eff) := dialog_step clk e dlg in
  (forall c, Store c ∉ eff)
  /\ (destroyed dlg' = false -> dialog_ok dlg')
  /\ (forall q, result dlg' = Some q -> payload_ok q).
Proof.
  intros Hok. pose proof Hok as (Hd & Hr & Hv).
  destruct e; simpl;
    try (split_and!; [intros c []%elem_of_nil | done || (intros _; done)
                      | simpl; rewrite ?Hr; done]).
  - split_and!; [intros c []%elem_of_nil| |simpl; by rewrite Hr].
    intros _. split_and!; [done..|]. simpl. unfold check_toggle.
    case_bool_decide; auto.
  - destruct (save_spec dlg Hok) as [[-> _]|[(msg & -> & _)|(q & -> & Hq)]].
    + split_and!; [|done|by rewrite Hr].
      intros c [=]%list_elem_of_singleton.
    + split_and!; [|done|by rewrite Hr].
      intros c [=]%list_elem_of_singleton.
    + split_and!; [intros c []%elem_of_nil|done|].
      simpl. by intros ? [= <-].
Qed.

(** ** The store operations on well-formed data *)

Lemma add_lesson_ok now d q :
  db_ok d -> payload_ok q ->
  db_ok (add_lesson now d (p_title q) (p_course q) (p_day q) (Some (p_done q))).
Proof.
  intros [Hnd Hrows] (Ht & Et & Hc & Ec & Hd & Ed & Hdn).
  unfold add_lesson, db_ok, int. simpl. split.
  - rewrite fmap_app. apply NoDup_app. split_and!; [done| |apply NoDup_singleton].
    intros i Hi [= ->]%list_elem_of_singleton. by apply (fresh_id_new d).
  - rewrite Forall_app. split; [done|].
    apply Forall_singleton. unfold row_ok. simpl.
    by rewrite Et, Ec, Ed.
Qed.

Lemma sql_update_ok set i l :
  (forall r, lesson_id (set r) = lesson_id r) ->
  (forall r, row_ok r -> row_ok (set r)) ->
  db_ok (mkDB l 0) -> forall s, db_ok (mkDB (sql_update set i l) s).
Proof.
  intros Hid Hset [Hnd Hrows] s. unfold db_ok in *. simpl in *. split.
  - by rewrite sql_update_ids.
  - unfold sql_update. apply Forall_fmap. eapply Forall_impl; [exact Hrows|].
    intros r Hr. simpl. case_bool_decide; auto.
Qed.

Lemma update_lesson_ok d i q :
  db_ok d -> payload_ok q ->
  db_ok (update_lesson d i (p_title q) (p_course q) (p_day q) (p_done q)).
Proof.
  intros Hd (Ht & Et & Hc & Ec & Hdy & Ed & Hdn).
  apply sql_update_ok; [done| |by destruct d].
  intros r _. unfold row_ok, int. simpl. by rewrite Et, Ec, Ed.
Qed.

Lemma toggle_done_ok d i : db_ok d -> db_ok (toggle_done d i).
Proof.
  intros Hd. apply sql_update_ok; [done| |by destruct d].
  intros r (? & ? & ? & _). unfold row_ok, flip_done. simpl.
  split_and!; [done..|]. case_bool_decide; auto.
Qed.

Lemma delete_lesson_ok d i : db_ok d -> db_ok (delete_lesson d i).
Proof.
  intros [Hnd Hrows]. unfold delete_lesson, db_ok. simpl.
  pose proof (sublist_filter (fun r => lesson_id r <> int i) (rows d)) as Hsub.
  split.
  - eapply sublist_NoDup; [exact Hnd|]. by apply fmap_sublist.
  - rewrite Forall_forall in *. intros r [_ Hr]%list_elem_of_filter. auto.
Qed.
Global Instance db_ok_closed : Closed db_ok.
Proof.
  split.
  - apply add_lesson_ok.
  - apply update_lesson_ok.
  - apply delete_lesson_ok.
  - apply toggle_done_ok.
Qed.

Global Instance True_closed : Closed (fun _ => True).
Proof. by split. Qed.

(** ** The main loop *)

Lemma view_only_seq a b : view_only a -> view_only b -> view_only (a >>> b).
Proof. intros [] []. split; by apply keeps_seq. Qed.

Lemma view_only_filters d c u : view_only (set_filters d c u).
Proof. done. Qed.

Lemma view_only_refresh_courses : view_only _refresh_courses.
Proof. split; by apply keeps_refresh_courses. Qed.

Lemma view_only_load_table : view_only _load_table.
Proof. split; by apply keeps_load_table. Qed.

Lemma view_only_reload_all : view_only _reload_all.
Proof. split; by apply keeps_reload_all. Qed.

Lemma view_only_filters_load d c u : view_only (set_filters d c u >>> _load_table).
Proof. apply view_only_seq; [apply view_only_filters | apply view_only_load_table]. Qed.

Lemma new_dialog_ok clk initial :
  i_done initial = None \/ i_done initial = Some 0 \/ i_done initial = Some 1 ->
  dialog_ok (new_dialog clk initial).
Proof.
  intros Hi. unfold dialog_ok, new_dialog, int. simpl. split_and!; [done..|].
  destruct Hi as [->|[->| ->]]; simpl; auto.
Qed.

Lemma get_selected_row_done st i initial :
  _get_selected_row st = Some (i, initial) ->
  i_done initial = Some 0 \/ i_done initial = Some 1.
Proof.
  unfold _get_selected_row.
  destruct (selection st) as [n|]; simpl; [|done].
  destruct (tree st !! n) as [r|]; simpl; [|done].
  intros [= _ <-]. simpl. destruct (bool_of_int (r_done r)); auto.
Qed.

Section main_loop.
Context (P : DB -> Prop) `{!Closed P}.

Lemma view_only_ok a st : view_only a -> app_ok P st -> app_ok P (a st).1.
Proof. intros [Hd Hm] [? ?]. unfold app_ok. by rewrite Hd, Hm. Qed.

Lemma set_db_ok x st : P x -> app_ok P st -> app_ok P (set_db x st).1.
Proof. by intros ? [_ ?]. Qed.

Lemma set_modal_ok m st :
  (forall mode dlg, m = Some (mode, dlg) -> dialog_ok dlg) ->
  app_ok P st -> app_ok P (set_modal m st).1.
Proof. by intros ? [? _]. Qed.

Lemma after_dialog_ok clk mode dlg st :
  (forall q, result dlg = Some q -> payload_ok q) ->
  app_ok P st -> app_ok P (after_dialog clk mode dlg st).1.
Proof.
  intros Hq Hst. unfold after_dialog.
  destruct (result dlg) as [q|]; [|by apply set_modal_ok].
  specialize (Hq q eq_refl). pose proof Hst as [Hdb _].
  destruct mode; rewrite !seq_act_fst;
    (apply view_only_ok; [apply view_only_reload_all|]);
    apply set_db_ok; try (by apply set_modal_ok).
  - by apply closed_add.
  - by apply closed_update.
Qed.

Lemma app_step_ok clk ev st : app_ok P st -> app_ok P (app_step clk ev st).1.
Proof.
  intros Hst. pose proof Hst as [Hdb Hmodal]. unfold app_step.
  destruct (modal st) as [[mode dlg]|] eqn:Hm.
  - destruct ev as [e| | | | | | | | | | | |]; [|exact Hst..].
    pose proof (dialog_step_spec clk e dlg (Hmodal _ _ eq_refl)) as Hstep.
    destruct (dialog_step clk e dlg) as [dlg' eff].
    destruct Hstep as (_ & Hopen & Hres).
    destruct (destroyed dlg') eqn:Hdes; rewrite seq_act_fst.
    + apply after_dialog_ok; [exact Hres | exact Hst].
    + apply set_modal_ok; [|exact Hst]. intros ?? [= <- <-]. by apply Hopen.
  - destruct ev as [e|s| | | |n| |n| | |yes| |].
    + exact Hst.
    + apply view_only_ok; [apply view_only_filters | exact Hst].
    + unfold _apply_filters. destruct (_ && _); [exact Hst|].
      apply view_only_ok; [apply view_only_load_table | exact Hst].
    + unfold _filter_today.
      apply view_only_ok; [apply view_only_filters_load | exact Hst].
    + unfold _filter_all.
      apply view_only_ok; [apply view_only_filters_load | exact Hst].
    + destruct (cb_values st !! n); [|exact Hst].
      apply view_only_ok; [apply view_only_filters_load | exact Hst].
    + apply view_only_ok; [apply view_only_filters_load | exact Hst].
    + case_bool_decide; exact Hst.
    + apply set_modal_ok; [|exact Hst]. intros ?? [= <- <-].
      apply new_dialog_ok. by left.
    + unfold _edit_selected.
      destruct (_get_selected_row st) as [[i initial]|] eqn:Hsel; [|exact Hst].
      apply set_modal_ok; [|exact Hst]. intros ?? [= <- <-].
      apply new_dialog_ok. right. by eapply get_selected_row_done.
    + unfold _delete_selected.
      destruct (_get_selected_row st) as [[i initial]|]; [|exact Hst].
      destruct yes; [|exact Hst]. rewrite !seq_act_fst.
      apply view_only_ok; [apply view_only_reload_all|].
      apply set_db_ok; [|exact Hst]. by apply closed_delete.
    + unfold _toggle_done_selected.
      destruct (_get_selected_row st) as [[i initial]|]; [|exact Hst].
      rewrite !seq_act_fst.
      apply view_only_ok; [apply view_only_reload_all|].
      apply set_db_ok; [|exact Hst]. by apply closed_toggle.
    + apply view_only_ok; [apply view_only_reload_all | exact Hst].
Qed.

Lemma run_ok evs st : app_ok P st -> app_ok P (run evs st).1.
Proof.
  revert st. induction evs as [|[clk ev] evs IH]; intros st Hst; [done|].
  simpl. pose proof (app_step_ok clk ev st Hst) as H1.
  destruct (app_step clk ev st) as [st1 e1]. simpl in H1.
  specialize (IH st1 H1). by destruct (run evs st1).
Qed.

Lemma start_ok d : P d -> app_ok P (start d).1.
Proof.
  intros Hd. unfold start. apply view_only_ok.
  - apply view_only_seq; [apply view_only_refresh_courses|apply view_only_load_table].
  - split; [done|]. by intros ?? [=].
Qed.
End main_loop.

(** Every store the program leaves behind: ids unique, title and course
    not empty, day accepted by [validate_iso_date], done 0 or 1. *)
Lemma reachable_ok d : reachable d -> db_ok d.
Proof.
  induction 1 as [|d evs _ IH].
  - split; [apply NoDup_nil_2 | apply Forall_nil_2].
  - by apply (run_ok db_ok), (start_ok db_ok).
Qed.

(** The dialog of a running session is an open dialog, whatever the file
    held when the session started. *)
Lemma session_dialog_open d0 evs mode dlg :
  modal (run evs (start d0).1).1 = Some (mode, dlg) -> dialog_ok dlg.
Proof.
  intros Hm.
  destruct (run_ok (fun _ => True) evs (start d0).1) as [_ Hok]; [|by eauto].
  by apply start_ok.
Qed.

(** * The dialog *)

(** C9.  In a session of the program, a press of Salva while the title
    field is empty after trimming changes nothing: the dialog stays open
    with its fields as they are, the store, its records and their number
    are the same, and the only effect is the error box; no call on the
    store is made.  This holds in the add dialog and in the edit dialog. *)
Theorem C9_empty_title_rejected (d0 : DB) (evs : list (Clock * Event))
    (clk : Clock) (mode : Mode) (dlg : Dialog) :
  let st := (run evs (start d0).1).1 in
  modal st = Some (mode, dlg) ->
  strip (e_title dlg) = [] ->
  let '(st', eff) := app_step clk (InDialog ClickSalva) st in
  st' = st
  /\ modal st' = Some (mode, dlg)
  /\ db st' = db st
  /\ length (rows (db st')) = length (rows (db st))
  /\ eff = [ShowError "Inserisci il nome della lezione."]
  /\ forall c, Store c ∉ eff.
Proof.
  intros st Hm Ht.
  destruct (session_dialog_open _ _ _ _ Hm) as (Hopen & _ & _).
  unfold app_step. rewrite Hm. simpl.
  unfold _save. rewrite bool_decide_true by done. rewrite Hopen.
  unfold seq_act, emit_all, set_modal. simpl.
  rewrite <-Hm. destruct st. simpl.
  split_and!; try done. intros c [=]%list_elem_of_singleton.
Qed.
End program_facts.

Lemma C9_empty_title_rejected_witness :
  let st := (run (H:=plain) blank_title_session (start three_lessons).1).1 in
  let '(st', eff) := app_step (H:=plain) monday (InDialog ClickSalva) st in
  st' = st
  /\ modal st' = Some (Adding, blank_title_dialog)
  /\ db st' = db st
  /\ length (rows (db st')) = length (rows (db st))
  /\ eff = [ShowError "Inserisci il nome della lezione."]
  /\ forall c, Store c ∉ eff.
Proof.
  apply (C9_empty_title_rejected (H:=plain) three_lessons blank_title_session
           monday Adding blank_title_dialog); vm_compute; reflexivity.
Defined.

(** * The stored day *)

(** C4.  The dialog asks for the day as YYYY-MM-DD, but what it checks is
    that [strptime] parses it, and [strptime] also takes a month and a day
    of one digit.  On a new file the session above is let through: the
    store it leaves holds the first lesson with the day "2025-1-5" as typed,
    which is not of the form YYYY-MM-DD.  The day filter "2025-01-05" does
    not find that lesson, and the unfiltered query lists the lesson of the
    tenth before it. *)
Theorem C4_unpadded_day_is_stored `{Platform} :
  let d := db (run unpadded_day_session (start empty_db).1).1 in
  reachable d
  /\ rows d = [mkLesson 1 (str "Algebra") (str "Math") (str "2025-1-5") 0
                        (str "2025-11-03 10:00:00");
               mkLesson 2 (str "Geometry") (str "Math") (str "2025-01-10") 0
                        (str "2025-11-03 10:00:00")]
  /\ validate_iso_date (str "2025-1-5") = true
  /\ matches_YYYY_MM_DD (str "2025-1-5") = false
  /\ query d (Some (str "2025-01-05")) None false = []
  /\ r_day <$> query d None None false = [str "2025-01-10"; str "2025-1-5"].
Proof.
  split; [apply reach_session, reach_new|].
  split_and!; vm_compute; reflexivity.
Qed.

(** * More of the store *)

Section more_store_facts.
Implicit Types (d : DB) (l : list Lesson) (r : Lesson) (i : Z).

Lemma StronglySorted_filter {A} (R : relation A) (P : A -> Prop)
    `{forall x, Decision (P x)} (l : list A) :
  StronglySorted R l -> StronglySorted R (filter P l).
Proof.
  induction 1 as [|x l _ IH Hx]; [constructor|].
  rewrite filter_cons. destruct (decide (P x)); [|done].
  constructor; [done|].
  rewrite Forall_forall in *. intros y [_ Hy]%list_elem_of_filter. auto.
Qed.

Lemma filter_select_row day_ course_ u l :
  filter (row_selected day_ course_ u) (select_row <$> l)
  = select_row <$> filter (selected day_ course_ u) l.
Proof.
  induction l as [|a l IH]; [done|].
  rewrite fmap_cons, !filter_cons, IH.
  destruct (decide (row_selected day_ course_ u (select_row a))) as [Hs|Hs];
    destruct (decide (selected day_ course_ u a)) as [Hs'|Hs']; try done;
    exfalso; apply Hs' || apply Hs; exact Hs || exact Hs'.
Qed.

Lemma selected_all r : selected None None false r.
Proof. unfold selected, unrestricted. split_and!; [by left; left..|done]. Qed.

(** With ids unique, two returned rows that tie under the ORDER BY are the
    same row. *)
Lemma query_rows_tie d x1 x2 :
  NoDup (lesson_id <$> rows d) ->
  (exists r1, r1 ∈ rows d /\ x1 = select_row r1) ->
  (exists r2, r2 ∈ rows d /\ x2 = select_row r2) ->
  row_le x1 x2 -> row_le x2 x1 -> x1 = x2.
Proof.
  intros Hnd (r1 & Hr1 & ->) (r2 & Hr2 & ->) H12 H21.
  f_equal. apply (same_id_same_lesson (rows d)); [done..|].
  apply (row_compare_Eq_id (select_row r1) (select_row r2)).
  by apply (cmp_le_antisym row_compare).
Qed.

Lemma filter_all {A} (P : A -> Prop) `{forall x, Decision (P x)} (l : list A) :
  (forall x, P x) -> filter P l = l.
Proof.
  intros HP. induction l as [|a l IH]; [done|].
  by rewrite filter_cons_True, IH.
Qed.

Lemma query_all_unsorted d : query d None None false ≡ₚ select_row <$> rows d.
Proof. rewrite query_unsorted. by rewrite (filter_all _ _ selected_all). Qed.

(** X1.  With ids unique, a filtered query is the full listing with the
    rows the filters leave out removed, the others in the order they have
    there. *)
Theorem X1_query_filters_the_listing d (day_ course_ : option pystr) (u : bool) :
  NoDup (lesson_id <$> rows d) ->
  query d day_ course_ u
  = filter (row_selected day_ course_ u) (query d None None false).
Proof.
  intros Hnd. apply (Sorted_unique_strong row_le).
  - intros x1 x2 H1 [_ H2]%list_elem_of_filter.
    apply elem_of_query in H1 as (r1 & ? & ? & _).
    apply elem_of_query in H2 as (r2 & ? & ? & _).
    apply (query_rows_tie d); eauto.
  - apply query_sorted.
  - apply StronglySorted_Sorted, StronglySorted_filter, Sorted_StronglySorted;
      [apply _ | apply query_sorted].
  - rewrite query_unsorted, query_all_unsorted. by rewrite filter_select_row.
Qed.

Lemma X1_query_filters_the_listing_witness :
  query three_lessons (Some (str "2025-01-05")) (Some TUTTI) true
  = filter (row_selected (Some (str "2025-01-05")) (Some TUTTI) true)
           (query three_lessons None None false).
Proof.
  apply (X1_query_filters_the_listing three_lessons). by_evaluation.
Defined.

(** X2.  After [update_lesson] on an id the table holds, the record found
    under the id has the trimmed title, course and day and the done that
    were passed, and the created_at it had; the unfiltered query returns
    that row, returns no other row under the id, and returns the rows of
    the other ids exactly as before. *)
Theorem X2_update_then_query d i (t c dy : pystr) (dn : Z) r :
  find_lesson d i = Some r ->
  let d' := update_lesson d i t c dy dn in
  let x := mkRow i (strip t) (strip c) (strip dy) dn in
  find_lesson d' i = Some (mkLesson i (strip t) (strip c) (strip dy) dn (created_at r))
  /\ x ∈ query d' None None false
  /\ (forall y, y ∈ query d' None None false -> r_id y = i -> y = x)
  /\ (forall y, r_id y <> i ->
        y ∈ query d' None None false <-> y ∈ query d None None false)
  /\ length (query d' None None false) = length (query d None None false).
Proof.
  intros Hf d' x. destruct (find_lesson_Some _ _ _ Hf) as [Hr Hi].
  assert (forall y, y ∈ query d' None None false
            <-> exists r0, r0 ∈ rows d
                  /\ y = if bool_decide (lesson_id r0 = i)
                         then mkRow (lesson_id r0) (strip t) (strip c) (strip dy) dn
                         else select_row r0) as Hq.
  { intros y. rewrite query_all_unsorted. unfold d', update_lesson, sql_update, int.
    simpl. rewrite <-list_fmap_compose, list_elem_of_fmap.
    split.
    - intros (r0 & -> & Hr0). exists r0. split; [done|]. simpl. by case_bool_decide.
    - intros (r0 & Hr0 & ->). exists r0. split; [|done]. simpl. by case_bool_decide. }
  split_and!.
  - subst d'. destruct d as [l s]. unfold update_lesson, int. simpl.
    rewrite find_lesson_update by done. rewrite Hf. simpl.
    rewrite bool_decide_true by done. by rewrite Hi.
  - apply Hq. exists r. split; [done|]. rewrite bool_decide_true by done.
    by rewrite Hi.
  - intros y (r0 & Hr0 & ->)%Hq Hy. revert Hy.
    case_bool_decide as E; simpl; [by rewrite E|]. done.
  - intros y Hy. rewrite Hq, query_all_unsorted, list_elem_of_fmap.
    split.
    + intros (r0 & Hr0 & ->). revert Hy. case_bool_decide; simpl; [done|]. eauto.
    + intros (r0 & -> & Hr0). exists r0. split; [done|].
      simpl in Hy. by rewrite bool_decide_false.
  - rewrite !query_all_unsorted, !length_fmap.
    unfold d', update_lesson, sql_update. simpl. by rewrite length_fmap.
Qed.

Lemma X2_update_then_query_witness :
  let d' := update_lesson three_lessons 2 (str " Topology ") (str "Math") (str "2025-02-01") 1 in
  let x := mkRow 2 (strip (str " Topology ")) (strip (str "Math")) (strip (str "2025-02-01")) 1 in
  find_lesson d' 2
  = Some (mkLesson 2 (strip (str " Topology ")) (strip (str "Math"))
                   (strip (str "2025-02-01")) 1 (created_at geometry))
  /\ x ∈ query d' None None false
  /\ (forall y, y ∈ query d' None None false -> r_id y = 2 -> y = x)
  /\ (forall y, r_id y <> 2 ->
        y ∈ query d' None None false <-> y ∈ query three_lessons None None false)
  /\ length (query d' None None false) = length (query three_lessons None None false).
Proof.
  apply (X2_update_then_query three_lessons 2 (str " Topology ") (str "Math")
           (str "2025-02-01") 1 geometry).
  vm_compute. reflexivity.
Defined.
(** ** Writes in sequence *)

Lemma sql_update_twice f g i l :
  (forall r, lesson_id (f r) = lesson_id r) ->
  sql_update g i (sql_update f i l) = sql_update (g ∘ f) i l.
Proof.
  intros Hf. unfold sql_update. rewrite <-list_fmap_compose.
  apply list_fmap_ext. intros _ r _. simpl.
  destruct (decide (lesson_id r = i)) as [E|E].
  - rewrite !(bool_decide_true _ E). by rewrite Hf, (bool_decide_true _ E).
  - by rewrite !(bool_decide_false _ E).
Qed.

Lemma sql_update_comm f g i j l :
  i <> j ->
  (forall r, lesson_id (f r) = lesson_id r) ->
  (forall r, lesson_id (g r) = lesson_id r) ->
  sql_update g j (sql_update f i l) = sql_update f i (sql_update g j l).
Proof.
  intros Hij Hf Hg. unfold sql_update. rewrite <-!list_fmap_compose.
  apply list_fmap_ext. intros _ r _. simpl.
  destruct (decide (lesson_id r = i)) as [Ei|Ei];
    destruct (decide (lesson_id r = j)) as [Ej|Ej]; [congruence|..];
    repeat (rewrite ?(bool_decide_true _ Ei), ?(bool_decide_false _ Ei),
              ?(bool_decide_true _ Ej), ?(bool_decide_false _ Ej), ?Hf, ?Hg;
            simpl);
    reflexivity.
Qed.

Lemma delete_after_sql_update f i j l :
  (forall r, lesson_id (f r) = lesson_id r) ->
  filter (fun r => lesson_id r <> j) (sql_update f i l)
  = (if bool_decide (i = j) then filter (fun r => lesson_id r <> j) l
     else sql_update f i (filter (fun r => lesson_id r <> j) l)).
Proof.
  intros Hf. unfold sql_update.
  assert (forall a, lesson_id (if bool_decide (lesson_id a = i) then f a else a)
                    = lesson_id a) as Hid.
  { intros a. destruct (bool_decide (lesson_id a = i)); [apply Hf | done]. }
  destruct (decide (i = j)) as [Eij|Eij].
  - rewrite (bool_decide_true _ Eij). subst j.
    induction l as [|a l IH]; [done|].
    rewrite fmap_cons, !filter_cons, IH, Hid.
    destruct (decide (lesson_id a <> i)) as [Ea|Ea]; [|done].
    by rewrite (bool_decide_false (lesson_id a = i)).
  - rewrite (bool_decide_false _ Eij).
    induction l as [|a l IH]; [done|].
    rewrite fmap_cons, !filter_cons, IH, Hid.
    by destruct (decide (lesson_id a <> j)).
Qed.

Lemma delete_absent i l : i ∉ lesson_id <$> filter (fun r => lesson_id r <> i) l.
Proof.
  intros (r & -> & [Hne _]%list_elem_of_filter)%list_elem_of_fmap. done.
Qed.

(** X3.  On one id the last write decides: a later update replaces an
    earlier update or toggle, a delete leaves what it would have left
    without the update or toggle before it, and once the id is deleted a
    further delete, update or toggle changes nothing. *)
Theorem X3_writes_on_one_id d i (t1 c1 dy1 : pystr) (n1 : Z) (t2 c2 dy2 : pystr) (n2 : Z) :
  update_lesson (update_lesson d i t1 c1 dy1 n1) i t2 c2 dy2 n2
  = update_lesson d i t2 c2 dy2 n2
  /\ update_lesson (toggle_done d i) i t2 c2 dy2 n2 = update_lesson d i t2 c2 dy2 n2
  /\ delete_lesson (update_lesson d i t1 c1 dy1 n1) i = delete_lesson d i
  /\ delete_lesson (toggle_done d i) i = delete_lesson d i
  /\ delete_lesson (delete_lesson d i) i = delete_lesson d i
  /\ update_lesson (delete_lesson d i) i t1 c1 dy1 n1 = delete_lesson d i
  /\ toggle_done (delete_lesson d i) i = delete_lesson d i.
Proof.
  destruct d as [l s].
  unfold update_lesson, toggle_done, delete_lesson, int. simpl.
  split_and!; f_equal.
  - by rewrite sql_update_twice.
  - by rewrite sql_update_twice.
  - rewrite delete_after_sql_update by done. by rewrite bool_decide_true.
  - rewrite delete_after_sql_update by done. by rewrite bool_decide_true.
  - rewrite list_filter_filter. apply list_filter_iff. intros r. tauto.
  - apply sql_update_absent, delete_absent.
  - apply sql_update_absent, delete_absent.
Qed.

(** X4.  Updates, toggles and deletes aimed at different ids can be made in
    either order. *)
Theorem X4_writes_on_two_ids_commute d (w1 w2 : Write) i j :
  target w1 = Some i -> target w2 = Some j -> i <> j ->
  write (write d w1) w2 = write (write d w2) w1.
Proof.
  intros H1 H2 Hij. destruct d as [l s].
  destruct w1 as [|i1 t1 c1 dy1 n1|i1|i1]; [done|..]; injection H1 as ->;
    (destruct w2 as [|i2 t2 c2 dy2 n2|i2|i2]; [done|..]); injection H2 as ->;
    unfold write, update_lesson, toggle_done, delete_lesson, int; simpl; f_equal.
  - by apply sql_update_comm.
  - rewrite delete_after_sql_update by done. by rewrite bool_decide_false.
  - by apply sql_update_comm.
  - rewrite delete_after_sql_update by done. by rewrite bool_decide_false.
  - rewrite !list_filter_filter. apply list_filter_iff. intros r. tauto.
  - rewrite delete_after_sql_update by done. by rewrite bool_decide_false.
  - by apply sql_update_comm.
  - rewrite delete_after_sql_update by done. by rewrite bool_decide_false.
  - by apply sql_update_comm.
Qed.

Lemma X4_writes_on_two_ids_commute_witness :
  write (write three_lessons (WToggle 1)) (WDelete 2)
  = write (write three_lessons (WDelete 2)) (WToggle 1).
Proof.
  apply (X4_writes_on_two_ids_commute three_lessons (WToggle 1) (WDelete 2) 1 2);
    [reflexivity | reflexivity | lia].
Defined.
(** ** The AUTOINCREMENT counter *)

Lemma max_id_nonneg l : 0 <= max_id l.
Proof. induction l as [|a l IH]; simpl; lia. Qed.

Lemma max_id_app l1 l2 : max_id (l1 ++ l2) = Z.max (max_id l1) (max_id l2).
Proof. induction l1 as [|a l1 IH]; simpl; [pose proof (max_id_nonneg l2)|]; lia. Qed.

Lemma max_id_same_ids l1 l2 :
  lesson_id <$> l1 = lesson_id <$> l2 -> max_id l1 = max_id l2.
Proof.
  revert l2. induction l1 as [|a l1 IH]; intros [|b l2]; simpl; try done.
  intros [= E1 E2]. rewrite E1. f_equal. by apply IH.
Qed.

Lemma max_id_filter (P : Lesson -> Prop) `{forall r, Decision (P r)} l :
  max_id (filter P l) <= max_id l.
Proof.
  induction l as [|a l IH]; [done|].
  rewrite filter_cons. destruct (decide (P a)); simpl; lia.
Qed.

Lemma write_seq_ok d w :
  seq_ok d -> seq_ok (write d w) /\ seq d <= seq (write d w).
Proof.
  unfold seq_ok. intros Hd.
  destruct w as [now t c dy dn|i t c dy dn|i|i]; simpl.
  - unfold fresh_id. rewrite max_id_app. simpl.
    pose proof (max_id_nonneg (rows d)). lia.
  - split; [|done]. by rewrite (max_id_same_ids _ (rows d)) by by apply sql_update_ids.
  - split; [|done]. etrans; [apply max_id_filter|done].
  - split; [|done]. by rewrite (max_id_same_ids _ (rows d)) by by apply sql_update_ids.
Qed.

Lemma writes_seq_ok ws d :
  seq_ok d -> seq_ok (writes ws d) /\ seq d <= seq (writes ws d).
Proof.
  revert d. induction ws as [|w ws IH]; intros d Hd; [done|].
  unfold writes. simpl. destruct (write_seq_ok d w Hd) as [H1 H2].
  destruct (IH _ H1) as [H3 H4]. unfold writes in *. split; [done|lia].
Qed.

(** X5.  Ids are not handed out twice.  Starting from a store whose counter
    is not behind its table, as on a new file, after any sequence of writes
    the id the next insert would take is larger than the id of every record
    the table held at any point of the sequence, deleted since or not. *)
Theorem X5_ids_are_not_reused d (ws1 ws2 : list Write) r :
  seq_ok d ->
  r ∈ rows (writes ws1 d) ->
  lesson_id r < fresh_id (writes (ws1 ++ ws2) d).
Proof.
  intros Hd Hr. unfold writes. rewrite foldl_app. fold (writes ws1 d).
  fold (writes ws2 (writes ws1 d)).
  destruct (writes_seq_ok ws1 d Hd) as [H1 _].
  destruct (writes_seq_ok ws2 _ H1) as [_ H2].
  pose proof (max_id_ge _ _ Hr). unfold seq_ok, fresh_id in *. lia.
Qed.

Lemma X5_ids_are_not_reused_witness :
  lesson_id history1 < fresh_id (writes ([WToggle 1] ++ [WDelete 3]) three_lessons).
Proof.
  apply (X5_ids_are_not_reused three_lessons [WToggle 1] [WDelete 3] history1).
  - unfold seq_ok. vm_compute. discriminate.
  - by_evaluation.
Defined.

(** ** Toggling and the undone view *)

(** X6.  With ids unique, a toggled lesson is listed by the undone-only
    query afterwards exactly when it was done before. *)
Theorem X6_toggle_and_undone_view d i r :
  NoDup (lesson_id <$> rows d) ->
  find_lesson d i = Some r ->
  (exists x, x ∈ query (toggle_done d i) None None true /\ r_id x = i)
  <-> done r <> 0.
Proof.
  intros Hnd Hf. destruct (find_lesson_Some _ _ _ Hf) as [Hr Hi].
  assert (forall r', r' ∈ rows (toggle_done d i) <->
            exists r0, r0 ∈ rows d
              /\ r' = if bool_decide (lesson_id r0 = i)
                      then mkLesson (lesson_id r0) (title r0) (course r0) (day r0)
                                    (flip_done (done r0)) (created_at r0)
                      else r0) as Hrows.
  { intros r'. unfold toggle_done, sql_update, int. simpl.
    rewrite list_elem_of_fmap. split; intros (r0 & ? & ?); eauto. }
  split.
  - intros (x & (r' & Hr' & -> & (_ & _ & Hu))%elem_of_query & Hx).
    apply Hrows in Hr' as (r0 & Hr0 & ->).
    specialize (Hu eq_refl). simpl in Hx. revert Hx Hu.
    case_bool_decide as E; simpl; [|done].
    intros _. assert (r0 = r) as -> by (apply (same_id_same_lesson (rows d)); congruence).
    unfold flip_done. by case_bool_decide.
  - intros Hdone.
    exists (mkRow i (title r) (course r) (day r) 0). split; [|done].
    apply elem_of_query.
    exists (mkLesson i (title r) (course r) (day r) 0 (created_at r)).
    split_and!.
    + apply Hrows. exists r. split; [done|].
      rewrite bool_decide_true by done. rewrite Hi. unfold flip_done.
      by rewrite bool_decide_false.
    + done.
    + unfold selected, unrestricted. split_and!; [by left; left..|done].
Qed.

Lemma X6_toggle_and_undone_view_witness :
  (exists x, x ∈ query (toggle_done three_lessons 2) None None true /\ r_id x = 2)
  <-> done geometry <> 0.
Proof.
  apply (X6_toggle_and_undone_view three_lessons 2 geometry).
  - by_evaluation.
  - vm_compute. reflexivity.
Defined.

(** ** The course list after a write *)

(** X7.  The course list follows the table: an insert adds its trimmed
    course to the courses listed before and nothing else; a toggle leaves
    the list as it is; a delete adds no course, and removes a course when
    the deleted id was the only one to carry it. *)
Theorem X7_courses_after_a_write d (now t c dy : pystr) (dn : option Z) i (c' : pystr) :
  (c' ∈ list_courses (add_lesson now d t c dy dn)
   <-> c' = strip c \/ c' ∈ list_courses d)
  /\ list_courses (toggle_done d i) = list_courses d
  /\ (c' ∈ list_courses (delete_lesson d i) -> c' ∈ list_courses d)
  /\ ((forall r, r ∈ rows d -> course r = c' -> lesson_id r = i) ->
      c' ∉ list_courses (delete_lesson d i)).
Proof.
  split_and!.
  - rewrite !elem_of_list_courses. unfold add_lesson. simpl.
    setoid_rewrite elem_of_app. setoid_rewrite list_elem_of_singleton. split.
    + intros (r & [Hr| ->] & <-); [right; eauto | by left].
    + intros [->|(r & Hr & <-)]; eauto.
  - unfold list_courses, toggle_done, sql_update. simpl. do 2 f_equal.
    rewrite <-list_fmap_compose. apply list_fmap_ext. intros _ r _. simpl.
    by case_bool_decide.
  - rewrite !elem_of_list_courses. unfold delete_lesson. simpl.
    intros (r & [_ Hr]%list_elem_of_filter & <-). eauto.
  - intros Honly. rewrite elem_of_list_courses. unfold delete_lesson, int. simpl.
    intros (r & [Hne Hr]%list_elem_of_filter & Hc). by apply Hne, Honly.
Qed.
End more_store_facts.

(** * More of the program *)

(** ** The view after a reload *)

Section view_facts.
Implicit Types (st : App).

Lemma seq_act_snd (a b : Act) st : ((a >>> b) st).2 = (a st).2 ++ (b (a st).1).2.
Proof. unfold seq_act. destruct (a st) as [st1 e1]. simpl. by destruct (b st1). Qed.

Lemma refresh_courses_fields st :
  let st' := (_refresh_courses st).1 in
  db st' = db st /\ tree st' = tree st /\ selection st' = selection st
  /\ status st' = status st /\ modal st' = modal st
  /\ var_day st' = var_day st /\ var_only_undone st' = var_only_undone st
  /\ cb_values st' = TUTTI :: list_courses (db st)
  /\ var_course st' ∈ cb_values st'
  /\ (var_course st ∈ TUTTI :: list_courses (db st) -> var_course st' = var_course st).
Proof.
  unfold _refresh_courses, seq_act, emit, set_cb_values. simpl.
  case_bool_decide as E; simpl; split_and!; try done.
  apply list_elem_of_here.
Qed.

Lemma refresh_courses_calls st : (_refresh_courses st).2 = [Store CallListCourses].
Proof.
  unfold _refresh_courses, seq_act, emit, set_cb_values. simpl.
  by case_bool_decide.
Qed.

Lemma load_table_fields st :
  let st' := (_load_table st).1 in
  db st' = db st /\ modal st' = modal st
  /\ var_day st' = var_day st /\ var_only_undone st' = var_only_undone st
  /\ tree st' = query (db st) (Some (day_filter st)) (Some (course_filter st))
                      (only_undone st)
  /\ selection st' = None
  /\ status st' = length (tree st')
  /\ cb_values st' = TUTTI :: list_courses (db st)
  /\ var_course st' ∈ cb_values st'
  /\ (var_course st ∈ TUTTI :: list_courses (db st) -> var_course st' = var_course st).
Proof.
  unfold _load_table. simpl. rewrite !seq_act_fst.
  set (st1 := (set_tree _ None _ (emit (Store CallQuery) st).1).1).
  destruct (refresh_courses_fields st1)
    as (Hdb & Htree & Hsel & Hstat & Hmod & Hday & Hund & Hcb & Hin & Hsame).
  simpl in *. rewrite Hdb, Htree, Hsel, Hstat, Hmod, Hday, Hund, Hcb. simpl.
  split_and!; try done. by rewrite Hcb in Hin.
Qed.

Lemma load_table_calls st : (_load_table st).2 = [Store CallQuery; Store CallListCourses].
Proof.
  unfold _load_table. simpl. rewrite !seq_act_snd, refresh_courses_calls. done.
Qed.

Lemma reload_all_calls st : (_reload_all st).2 = reload_calls.
Proof.
  unfold _reload_all. by rewrite seq_act_snd, refresh_courses_calls, load_table_calls.
Qed.

(** A reload shows the store under the filters as they stand after it. *)
Lemma reload_all_fields st :
  let st' := (_reload_all st).1 in
  db st' = db st /\ modal st' = modal st
  /\ var_day st' = var_day st /\ var_only_undone st' = var_only_undone st
  /\ tree st' = query (db st) (Some (day_filter st')) (Some (course_filter st'))
                      (only_undone st')
  /\ selection st' = None
  /\ status st' = length (tree st')
  /\ cb_values st' = TUTTI :: list_courses (db st)
  /\ var_course st' ∈ cb_values st'
  /\ (var_course st ∈ TUTTI :: list_courses (db st) -> var_course st' = var_course st).
Proof.
  unfold _reload_all. simpl. rewrite seq_act_fst.
  destruct (refresh_courses_fields st)
    as (Hdb & _ & _ & _ & Hmod & Hday & Hund & Hcb & Hin & Hsame).
  set (st1 := (_refresh_courses st).1) in *.
  destruct (load_table_fields st1)
    as (Hdb' & Hmod' & Hday' & Hund' & Htree & Hsel & Hstat & Hcb' & Hin' & Hsame').
  set (st2 := (_load_table st1).1) in *.
  rewrite Hcb in Hin. rewrite Hdb in *.
  specialize (Hsame' Hin).
  split_and!; try congruence.
  - rewrite Htree. unfold day_filter, course_filter, only_undone. congruence.
  - intros Hc. rewrite Hsame'. by apply Hsame.
Qed.

Lemma view_ok_load_table st :
  var_course st ∈ TUTTI :: list_courses (db st) -> view_ok (_load_table st).1.
Proof.
  intros Hc.
  destruct (load_table_fields st)
    as (Hdb & _ & _ & Hund & Htree & Hsel & Hstat & Hcb & Hin & Hsame).
  specialize (Hsame Hc).
  unfold view_ok, course_filter, only_undone. rewrite Hdb, Hsel, Hcb, Hsame, Hund.
  split_and!; try done.
  rewrite Htree. eauto.
Qed.

Lemma view_ok_reload_all st : view_ok (_reload_all st).1.
Proof.
  destruct (reload_all_fields st)
    as (Hdb & _ & _ & _ & Htree & Hsel & Hstat & Hcb & Hin & _).
  unfold view_ok. rewrite Hdb, Hsel, Hcb. split_and!; try done.
  - rewrite Htree. eauto.
  - by rewrite <-Hcb.
Qed.

Lemma view_ok_then_reload (a : Act) st : view_ok ((a >>> _reload_all) st).1.
Proof. rewrite seq_act_fst. apply view_ok_reload_all. Qed.

Lemma view_ok_filters_load d c u st :
  view_ok st -> c ∈ cb_values st -> view_ok ((set_filters d c u >>> _load_table) st).1.
Proof.
  intros (_ & _ & _ & Hcb & _) Hc. rewrite seq_act_fst.
  apply view_ok_load_table. simpl. by rewrite <-Hcb.
Qed.
End view_facts.

(** ** Callbacks that do not write *)

Section quiet_facts.
Implicit Types (st : App).

Lemma quiet_seq a b : quiet a -> quiet b -> quiet (a >>> b).
Proof.
  intros Ha Hb st. rewrite seq_act_fst, seq_act_snd.
  destruct (Ha st) as [Ha1 Ha2]. destruct (Hb (a st).1) as [Hb1 Hb2].
  split; [congruence|]. by apply Forall_app.
Qed.

Lemma quiet_plain (a : Act) :
  (forall st, db (a st).1 = db st) -> (forall st, (a st).2 = []) -> quiet a.
Proof. intros Hd He st. rewrite He. split; [apply Hd | constructor]. Qed.

Lemma quiet_emit e : ~ is_write_call e -> quiet (emit e).
Proof. intros He st. split; [done|]. by apply Forall_singleton. Qed.

Lemma quiet_load_table : quiet _load_table.
Proof.
  intros st. rewrite load_table_calls.
  destruct (load_table_fields st) as (Hdb & _). split; [done|].
  repeat constructor; simpl; tauto.
Qed.

Lemma quiet_reload_all : quiet _reload_all.
Proof.
  intros st. rewrite reload_all_calls.
  destruct (reload_all_fields st) as (Hdb & _). split; [done|].
  repeat constructor; simpl; tauto.
Qed.

Lemma quiet_filters_load d c u : quiet (set_filters d c u >>> _load_table).
Proof. apply quiet_seq; [by apply quiet_plain | apply quiet_load_table]. Qed.
End quiet_facts.

(** ** Sessions *)

Section more_program_facts.
Context `{Platform}.
Implicit Types (st : App).

Lemma after_dialog_view_ok clk mode dlg st :
  view_ok st -> view_ok (after_dialog clk mode dlg st).1.
Proof.
  intros Hst. unfold after_dialog.
  destruct (result dlg) as [q|]; [|exact Hst].
  destruct mode; rewrite !seq_act_fst; apply view_ok_reload_all.
Qed.

Lemma view_step_ok clk ev st : view_ok st -> view_ok (app_step clk ev st).1.
Proof.
  intros Hst. pose proof Hst as (Htree & Hstat & Hsel & Hcb & Hin).
  unfold app_step.
  destruct (modal st) as [[mode dlg]|] eqn:Hm.
  - destruct ev as [e| | | | | | | | | | | |]; [|exact Hst..].
    destruct (dialog_step clk e dlg) as [dlg' eff].
    destruct (destroyed dlg'); rewrite seq_act_fst.
    + by apply after_dialog_view_ok.
    + exact Hst.
  - destruct ev as [e|s| | | |n| |n| | |yes| |].
    + exact Hst.
    + exact Hst.
    + unfold _apply_filters. destruct (_ && _); [exact Hst|].
      apply view_ok_load_table. by rewrite <-Hcb.
    + unfold _filter_today. by apply view_ok_filters_load.
    + unfold _filter_all. apply view_ok_filters_load; [done|].
      rewrite Hcb. apply list_elem_of_here.
    + destruct (cb_values st !! n) as [c|] eqn:Hn; [|exact Hst].
      apply view_ok_filters_load; [done|]. by eapply list_elem_of_lookup_2.
    + by apply view_ok_filters_load.
    + case_bool_decide as Hn; [|exact Hst].
      unfold view_ok. simpl. split_and!; try done. by intros ? [= <-].
    + exact Hst.
    + unfold _edit_selected. destruct (_get_selected_row st) as [[i initial]|]; exact Hst.
    + unfold _delete_selected.
      destruct (_get_selected_row st) as [[i initial]|]; [|exact Hst].
      destruct yes; [|exact Hst]. rewrite !seq_act_fst. apply view_ok_reload_all.
    + unfold _toggle_done_selected.
      destruct (_get_selected_row st) as [[i initial]|]; [|exact Hst].
      rewrite !seq_act_fst. apply view_ok_reload_all.
    + apply view_ok_reload_all.
Qed.

Lemma run_view_ok evs st : view_ok st -> view_ok (run evs st).1.
Proof.
  revert st. induction evs as [|[clk ev] evs IH]; intros st Hst; [done|].
  simpl. pose proof (view_step_ok clk ev st Hst) as H1.
  destruct (app_step clk ev st) as [st1 e1]. simpl in H1.
  specialize (IH st1 H1). by destruct (run evs st1).
Qed.

Lemma session_view_ok d0 evs : view_ok (run evs (start d0).1).1.
Proof. apply run_view_ok. unfold start. apply view_ok_reload_all. Qed.

(** X8.  All through a session the view is in step with the store,
    whatever the file held at the start: the table shows what [query]
    returns on the current store for the course and the undone flag as set
    and for some day filter, so every row shown is a record of the store;
    the status line counts the rows shown; a selection, when there is one,
    stands on a row of the table, never outside it; the combobox offers
    "TUTTI" followed by the courses of the store, and the chosen course is
    one of them. *)
Theorem X8_view_in_step_with_store (d0 : DB) (evs : list (Clock * Event)) :
  let st := (run evs (start d0).1).1 in
  (exists day_, tree st = query (db st) day_ (Some (course_filter st)) (only_undone st))
  /\ (forall x, x ∈ tree st -> exists r, r ∈ rows (db st) /\ x = select_row r)
  /\ status st = length (tree st)
  /\ (forall n, selection st = Some n ->
       (n < length (tree st))%nat /\ exists x, tree st !! n = Some x)
  /\ cb_values st = TUTTI :: list_courses (db st)
  /\ var_course st ∈ cb_values st.
Proof.
  intros st. destruct (session_view_ok d0 evs) as ([dy Ht] & Hs & Hsel & Hcb & Hin).
  fold st in Ht, Hs, Hsel, Hcb, Hin. split_and!; eauto.
  - intros x. rewrite Ht. intros (r & ? & ? & _)%elem_of_query. eauto.
  - intros n Hn. split; [by apply Hsel|].
    apply lookup_lt_is_Some_2. by apply Hsel.
Qed.

(** X9.  In a session, the row the selection stands on is a record of the
    store as it is: the id [_get_selected_row] reads from the tag is the id
    of a record the table holds, and the fields it hands to the edit dialog
    are that record's, as Tk gives them back, with done as 1 or 0. *)
Theorem X9_selected_row_is_current (d0 : DB) (evs : list (Clock * Event))
    (i : Z) (initial : Initial) :
  let st := (run evs (start d0).1).1 in
  _get_selected_row st = Some (i, initial) ->
  exists r, r ∈ rows (db st) /\ lesson_id r = i
            /\ initial = mkInitial (Some (tk_value (title r)))
                                   (Some (tk_value (course r)))
                                   (Some (tk_value (day r)))
                                   (Some (if is_done r then 1 else 0)).
Proof.
  intros st. destruct (session_view_ok d0 evs) as ([dy Ht] & _). fold st in Ht.
  unfold _get_selected_row.
  destruct (selection st) as [n|]; simpl; [|done].
  destruct (tree st !! n) as [x|] eqn:Hn; simpl; [|done].
  intros [= <- <-].
  apply list_elem_of_lookup_2 in Hn. rewrite Ht in Hn.
  apply elem_of_query in Hn as (r & Hr & -> & _). eauto.
Qed.
(** ** Events that do not write *)

Lemma dialog_step_no_save clk e dlg :
  dialog_ok dlg -> e <> ClickSalva ->
  (dialog_step clk e dlg).2 = []
  /\ (destroyed (dialog_step clk e dlg).1 = true ->
      result (dialog_step clk e dlg).1 = None).
Proof.
  intros (Hd & Hr & _) He.
  destruct e; simpl; rewrite ?Hd; try done.
Qed.

Lemma step_quiet clk ev st :
  (forall mode dlg, modal st = Some (mode, dlg) -> dialog_ok dlg) ->
  ~ may_write ev ->
  db (app_step clk ev st).1 = db st
  /\ Forall (fun e => ~ is_write_call e) (app_step clk ev st).2.
Proof.
  intros Hmodal Hev. unfold may_write in Hev. unfold app_step.
  destruct (modal st) as [[mode dlg]|] eqn:Hm.
  - destruct ev as [e| | | | | | | | | | | |]; [|by split; [|constructor]..].
    assert (e <> ClickSalva) as He by (intros ->; tauto).
    destruct (dialog_step_no_save clk e dlg (Hmodal _ _ eq_refl) He) as [Heff Hres].
    destruct (dialog_step clk e dlg) as [dlg' eff]. simpl in Heff, Hres. subst eff.
    destruct (destroyed dlg') eqn:Hdes.
    + rewrite seq_act_fst, seq_act_snd. simpl. unfold after_dialog.
      rewrite (Hres eq_refl). by split; [|constructor].
    + by split; [|constructor].
  - destruct ev as [e|s| | | |n| |n| | |yes| |].
    + by split; [|constructor].
    + by split; [|constructor].
    + unfold _apply_filters. destruct (_ && _).
      * apply quiet_emit. simpl. tauto.
      * apply quiet_load_table.
    + unfold _filter_today. apply quiet_filters_load.
    + unfold _filter_all. apply quiet_filters_load.
    + destruct (cb_values st !! n); [apply quiet_filters_load|by split; [|constructor]].
    + apply quiet_filters_load.
    + case_bool_decide; by split; [|constructor].
    + by split; [|constructor].
    + unfold _edit_selected. destruct (_get_selected_row st) as [[i initial]|].
      * by split; [|constructor].
      * apply quiet_emit. simpl. tauto.
    + destruct yes; [tauto|]. unfold _delete_selected.
      destruct (_get_selected_row st) as [[i initial]|].
      * by split; [|constructor].
      * apply quiet_emit. simpl. tauto.
    + tauto.
    + apply quiet_reload_all.
Qed.

(** X10.  In a session only three events can write the store: Salva in the
    dialog, Elimina confirmed, and Fatta.  Every other event, typing in
    the dialog, Annulla, the filter controls, selecting a row, opening a
    dialog, Elimina declined, Ricarica, leaves every record as it is and
    makes no writing call on the store. *)
Theorem X10_other_events_do_not_write (d0 : DB) (evs : list (Clock * Event))
    (clk : Clock) (ev : Event) :
  let st := (run evs (start d0).1).1 in
  ~ may_write ev ->
  db (app_step clk ev st).1 = db st
  /\ Forall (fun e => ~ is_write_call e) (app_step clk ev st).2.
Proof.
  intros st Hev. apply step_quiet; [|done].
  intros mode dlg Hm. by eapply session_dialog_open.
Qed.

(** ** Salva *)

Lemma step_save_rejected clk mode dlg st msg :
  modal st = Some (mode, dlg) -> destroyed dlg = false ->
  _save dlg = (dlg, [ShowError msg]) ->
  app_step clk (InDialog ClickSalva) st = (st, [ShowError msg]).
Proof.
  intros Hm Hd Hs. unfold app_step. rewrite Hm.
  change (dialog_step clk ClickSalva dlg) with (_save dlg). rewrite Hs, Hd.
  unfold seq_act, emit_all, set_modal. simpl. rewrite <-Hm. by destruct st.
Qed.

(** X11.  In a session, Salva with a title but with the course empty after
    trimming, or with title and course but a day [validate_iso_date]
    refuses, is rejected like the empty title: the state is as it was, the
    dialog still open, and the one effect is the error box naming the field,
    the course before the day. *)
Theorem X11_save_rejects_course_and_day (d0 : DB) (evs : list (Clock * Event))
    (clk : Clock) (mode : Mode) (dlg : Dialog) :
  let st := (run evs (start d0).1).1 in
  modal st = Some (mode, dlg) ->
  strip (e_title dlg) <> [] ->
  (strip (e_course dlg) = [] ->
   app_step clk (InDialog ClickSalva) st
   = (st, [ShowError "Inserisci il corso/categoria."]))
  /\ (strip (e_course dlg) <> [] -> validate_iso_date (e_day dlg) = false ->
      app_step clk (InDialog ClickSalva) st
      = (st, [ShowError "La data deve essere nel formato YYYY-MM-DD (es. 2025-11-25)."])).
Proof.
  intros st Hm Ht.
  destruct (session_dialog_open _ _ _ _ Hm) as (Hopen & _ & _).
  split.
  - intros Hc. apply (step_save_rejected clk mode dlg); [done..|].
    unfold _save. by rewrite bool_decide_false, bool_decide_true.
  - intros Hc Hd. apply (step_save_rejected clk mode dlg); [done..|].
    unfold _save. rewrite !bool_decide_false by done.
    by rewrite validate_iso_date_strip, Hd.
Qed.

Lemma save_accepts dlg :
  strip (e_title dlg) <> [] -> strip (e_course dlg) <> [] ->
  validate_iso_date (e_day dlg) = true ->
  _save dlg
  = (mkDialog (e_title dlg) (e_course dlg) (e_day dlg) (var_done dlg)
              (Some (mkPayload (strip (e_title dlg)) (strip (e_course dlg))
                               (strip (e_day dlg)) (var_done dlg))) true, []).
Proof.
  intros Ht Hc Hd. unfold _save, int.
  rewrite !bool_decide_false by done. by rewrite validate_iso_date_strip, Hd.
Qed.

Lemma save_step_accepted (clk : Clock) (mode : Mode) (dlg : Dialog) st :
  modal st = Some (mode, dlg) ->
  strip (e_title dlg) <> [] -> strip (e_course dlg) <> [] ->
  validate_iso_date (e_day dlg) = true ->
  let t := strip (e_title dlg) in
  let c := strip (e_course dlg) in
  let dy := strip (e_day dlg) in
  let q := mkPayload t c dy (var_done dlg) in
  let st' := (app_step clk (InDialog ClickSalva) st).1 in
  modal st' = None
  /\ db st' = match mode with
              | Adding => add_lesson (current_timestamp clk) (db st) t c dy (Some (var_done dlg))
              | Editing i => update_lesson (db st) i t c dy (var_done dlg)
              end
  /\ (mode = Adding ->
      rows (db st') = rows (db st)
                      ++ [mkLesson (fresh_id (db st)) t c dy (var_done dlg)
                                   (current_timestamp clk)])
  /\ (app_step clk (InDialog ClickSalva) st).2
     = Store (match mode with Adding => CallAdd q | Editing i => CallUpdate i q end)
       :: reload_calls
  /\ tree st' = query (db st') (Some (day_filter st')) (Some (course_filter st'))
                      (only_undone st').
Proof.
  intros Hm Ht Hc Hd t c dy q st'.
  assert (app_step clk (InDialog ClickSalva) st
          = match mode with
            | Adding =>
                (set_modal None >>> emit (Store (CallAdd q)) >>>
                 set_db (add_lesson (current_timestamp clk) (db st) t c dy
                           (Some (var_done dlg))) >>> _reload_all) st
            | Editing i =>
                (set_modal None >>> emit (Store (CallUpdate i q)) >>>
                 set_db (update_lesson (db st) i t c dy (var_done dlg)) >>>
                 _reload_all) st
            end) as Hstep.
  { unfold app_step. rewrite Hm.
    change (dialog_step clk ClickSalva dlg) with (_save dlg).
    rewrite (save_accepts dlg Ht Hc Hd). simpl destroyed. cbv iota.
    unfold seq_act at 1. unfold emit_all, after_dialog. simpl result. cbv iota beta.
    subst t c dy q.
    destruct mode; simpl p_title; simpl p_course; simpl p_day; simpl p_done;
      match goal with |- (let '(_, _) := ?x in _) = _ => by destruct x end. }
  subst st'. rewrite Hstep. clear Hstep.
  destruct mode as [|i]; rewrite !seq_act_fst, !seq_act_snd, reload_all_calls;
    match goal with |- context [_reload_all ?s] =>
      destruct (reload_all_fields s) as (Hdb & Hmod & _ & _ & Htree & _) end;
    rewrite Hdb, Hmod, Htree; simpl; split_and!; try done.
  intros _. unfold t, c, dy, int. by rewrite !strip_idemp.
Qed.

(** X12.  Salva with title and course not empty after
    trimming and a day [validate_iso_date] accepts closes the dialog and
    makes exactly one write with the trimmed fields and the checkbox value:
    [add_lesson] from the add dialog, which appends the record under a
    fresh id, [update_lesson] on the edited id from the edit dialog.  The
    view is then reloaded: the table shows the new store under the filters
    as they stand. *)
Theorem X12_save_accepted (clk : Clock) (mode : Mode) (dlg : Dialog) st :
  modal st = Some (mode, dlg) ->
  strip (e_title dlg) <> [] -> strip (e_course dlg) <> [] ->
  validate_iso_date (e_day dlg) = true ->
  let t := strip (e_title dlg) in
  let c := strip (e_course dlg) in
  let dy := strip (e_day dlg) in
  let q := mkPayload t c dy (var_done dlg) in
  let st' := (app_step clk (InDialog ClickSalva) st).1 in
  modal st' = None
  /\ db st' = match mode with
              | Adding => add_lesson (current_timestamp clk) (db st) t c dy (Some (var_done dlg))
              | Editing i => update_lesson (db st) i t c dy (var_done dlg)
              end
  /\ (mode = Adding ->
      rows (db st') = rows (db st)
                      ++ [mkLesson (fresh_id (db st)) t c dy (var_done dlg)
                                   (current_timestamp clk)])
  /\ (app_step clk (InDialog ClickSalva) st).2
     = Store (match mode with Adding => CallAdd q | Editing i => CallUpdate i q end)
       :: reload_calls
  /\ tree st' = query (db st') (Some (day_filter st')) (Some (course_filter st'))
                      (only_undone st').
Proof. apply save_step_accepted. Qed.

(** X13.  In a session, Annulla closes the dialog and does nothing else:
    no call on the store, no reload, no message; store, table, selection
    and filters are as they were. *)
Theorem X13_cancel_only_closes (d0 : DB) (evs : list (Clock * Event))
    (clk : Clock) (mode : Mode) (dlg : Dialog) :
  let st := (run evs (start d0).1).1 in
  modal st = Some (mode, dlg) ->
  app_step clk (InDialog ClickAnnulla) st
  = (mkApp (db st) (var_day st) (var_course st) (var_only_undone st)
           (cb_values st) (tree st) (selection st) (status st) None, []).
Proof.
  intros st Hm. unfold app_step. rewrite Hm. reflexivity.
Qed.
(** ** Elimina and Fatta *)

Lemma no_selection_no_row st : selection st = None -> _get_selected_row st = None.
Proof. unfold _get_selected_row. by intros ->. Qed.

(** X14.  With a row selected in the main window, Elimina confirmed
    deletes the record of the selected id and reloads: the table shows no
    row of that id any more and nothing is selected, so that a second
    Elimina only shows the notice.  Elimina declined changes nothing. *)
Theorem X14_delete_selected (clk : Clock) st (i : Z) (initial : Initial) :
  modal st = None ->
  _get_selected_row st = Some (i, initial) ->
  let st' := (app_step clk (ClickElimina true) st).1 in
  db st' = delete_lesson (db st) i
  /\ (app_step clk (ClickElimina true) st).2 = Store (CallDelete i) :: reload_calls
  /\ (forall x, x ∈ tree st' -> r_id x <> i)
  /\ selection st' = None
  /\ app_step clk (ClickElimina true) st' = (st', [ShowInfo select_first])
  /\ app_step clk (ClickElimina false) st = (st, []).
Proof.
  intros Hm Hsel st'.
  assert (app_step clk (ClickElimina true) st
          = (emit (Store (CallDelete i)) >>> set_db (delete_lesson (db st) i)
             >>> _reload_all) st) as Hstep.
  { unfold app_step. rewrite Hm. unfold _delete_selected. by rewrite Hsel. }
  subst st'. rewrite Hstep.
  rewrite !seq_act_fst, !seq_act_snd, reload_all_calls.
  match goal with |- context [_reload_all ?s] =>
    destruct (reload_all_fields s) as (Hdb & Hmod & _ & _ & Htree & Hnone & _);
    set (st1 := (_reload_all s).1) in *; clearbody st1 end.
  simpl in Hdb, Hmod, Htree. split_and!; try done.
  - rewrite Htree. intros x (r & Hr & -> & _)%elem_of_query.
    unfold delete_lesson in Hr. simpl in Hr.
    by apply list_elem_of_filter in Hr as [Hne _].
  - unfold app_step. rewrite Hmod, Hm. unfold _delete_selected.
    by rewrite (no_selection_no_row _ Hnone).
  - unfold app_step. rewrite Hm. unfold _delete_selected. by rewrite Hsel.
Qed.

(** X15.  With a row selected in the main window, Fatta toggles the record
    of the selected id and reloads; the reload drops the selection, so that
    a second Fatta right after it only shows the notice and the lesson
    stays toggled once. *)
Theorem X15_toggle_selected (clk : Clock) st (i : Z) (initial : Initial) :
  modal st = None ->
  _get_selected_row st = Some (i, initial) ->
  let st' := (app_step clk ClickFatta st).1 in
  db st' = toggle_done (db st) i
  /\ (app_step clk ClickFatta st).2 = Store (CallToggle i) :: reload_calls
  /\ tree st' = query (db st') (Some (day_filter st')) (Some (course_filter st'))
                      (only_undone st')
  /\ selection st' = None
  /\ app_step clk ClickFatta st' = (st', [ShowInfo select_first]).
Proof.
  intros Hm Hsel st'.
  assert (app_step clk ClickFatta st
          = (emit (Store (CallToggle i)) >>> set_db (toggle_done (db st) i)
             >>> _reload_all) st) as Hstep.
  { unfold app_step. rewrite Hm. unfold _toggle_done_selected. by rewrite Hsel. }
  subst st'. rewrite Hstep.
  rewrite !seq_act_fst, !seq_act_snd, reload_all_calls.
  match goal with |- context [_reload_all ?s] =>
    destruct (reload_all_fields s) as (Hdb & Hmod & _ & _ & Htree & Hnone & _);
    set (st1 := (_reload_all s).1) in *; clearbody st1 end.
  simpl in Hdb, Hmod, Htree. split_and!; try done.
  - by rewrite Hdb.
  - unfold app_step. rewrite Hmod, Hm. unfold _toggle_done_selected.
    by rewrite (no_selection_no_row _ Hnone).
Qed.
End more_program_facts.

(** ** Showing everything *)

Section show_all_facts.
Implicit Types (st : App).

Lemma query_sentinels d u : query d (Some TUTTE) (Some TUTTI) u = query d None None u.
Proof. reflexivity. Qed.

Lemma sentinel_filters st :
  var_day st = TUTTE -> var_course st = TUTTI ->
  day_filter st = TUTTE /\ course_filter st = TUTTI.
Proof. unfold day_filter, course_filter. by intros -> ->. Qed.

(** X16.  On start the application shows the whole store: the filters are
    at "TUTTE", "TUTTI" and 0, the table holds every record, in the order
    of the unfiltered query, the status line gives their number, the
    combobox offers "TUTTI" and the courses of the store, no row is
    selected and no dialog is open; the store is as found. *)
Theorem X16_start_shows_everything (d : DB) :
  let st := (start d).1 in
  db st = d /\ modal st = None /\ selection st = None
  /\ var_day st = TUTTE /\ var_course st = TUTTI /\ var_only_undone st = 0
  /\ tree st = query d None None false
  /\ tree st ≡ₚ select_row <$> rows d
  /\ status st = length (rows d)
  /\ cb_values st = TUTTI :: list_courses d
  /\ (start d).2 = reload_calls.
Proof.
  intros st. subst st. unfold start.
  change (_refresh_courses >>> _load_table) with _reload_all.
  rewrite reload_all_calls.
  match goal with |- context [_reload_all ?s] =>
    destruct (reload_all_fields s)
      as (Hdb & Hmod & Hday & Hund & Htree & Hnone & Hstat & Hcb & _ & Hsame);
    set (st1 := (_reload_all s).1) in *; clearbody st1 end.
  simpl in Hdb, Hmod, Hday, Hund, Hcb, Hsame.
  specialize (Hsame (list_elem_of_here _ _)).
  destruct (sentinel_filters st1 Hday Hsame) as [Hdf Hcf].
  assert (tree st1 = query d None None false) as Ht.
  { rewrite Htree, Hdf, Hcf. unfold only_undone. by rewrite Hund. }
  split_and!; try done.
  - rewrite Ht. apply query_all_unsorted.
  - rewrite Hstat, Ht, query_all_unsorted. by rewrite length_fmap.
Qed.

(** X17.  Tutte in the main window resets the three filters and shows the
    whole store again, whatever the filters were: every record is in the
    table, the status line gives their number; the store is not touched. *)
Theorem X17_filter_all_shows_everything (clk : Clock) `{Platform} st :
  modal st = None ->
  let st' := (app_step clk ClickTutte st).1 in
  db st' = db st
  /\ var_day st' = TUTTE /\ var_course st' = TUTTI /\ var_only_undone st' = 0
  /\ tree st' = query (db st) None None false
  /\ tree st' ≡ₚ select_row <$> rows (db st)
  /\ status st' = length (rows (db st)).
Proof.
  intros Hm st'. subst st'. unfold app_step. rewrite Hm. unfold _filter_all.
  rewrite seq_act_fst.
  match goal with |- context [_load_table ?s] =>
    destruct (load_table_fields s)
      as (Hdb & _ & Hday & Hund & Htree & _ & Hstat & _ & _ & Hsame);
    set (st1 := (_load_table s).1) in *; clearbody st1 end.
  simpl in Hdb, Hday, Hund, Htree, Hsame.
  specialize (Hsame (list_elem_of_here _ _)).
  assert (tree st1 = query (db st) None None false) as Ht by (by rewrite Htree).
  split_and!; try done.
  - rewrite Ht. apply query_all_unsorted.
  - rewrite Hstat, Ht, query_all_unsorted. by rewrite length_fmap.
Qed.
End show_all_facts.

(** ** Applica filtri *)

Section filter_facts.
Context `{Platform}.
Implicit Types (st : App).

Lemma query_day_sentinel d c u : query d (Some TUTTE) c u = query d None c u.
Proof. reflexivity. Qed.

(** X18.  Applica filtri in the main window.  A day filter that, trimmed,
    is neither empty nor "TUTTE" nor a day [validate_iso_date] accepts is
    refused: error box, no query, state as it was.  Otherwise the table is
    reloaded and the store is left alone: a filter that is blank or "TUTTE"
    shows the lessons of every day, any other shows only the lessons whose
    day is the trimmed filter, letter for letter. *)
Theorem X18_apply_filters (clk : Clock) st :
  modal st = None ->
  let dy := strip (var_day st) in
  (dy <> TUTTE -> dy <> [] -> validate_iso_date (var_day st) = false ->
   app_step clk ClickApplica st
   = (st, [ShowError "Filtro data non valido. Usa YYYY-MM-DD oppure 'TUTTE'."]))
  /\ (dy = TUTTE \/ dy = [] \/ validate_iso_date (var_day st) = true ->
      let st' := (app_step clk ClickApplica st).1 in
      db st' = db st
      /\ (app_step clk ClickApplica st).2 = [Store CallQuery; Store CallListCourses]
      /\ (dy = TUTTE \/ dy = [] ->
          tree st' = query (db st) None (Some (course_filter st)) (only_undone st))
      /\ (dy <> TUTTE -> dy <> [] ->
          tree st' = query (db st) (Some dy) (Some (course_filter st)) (only_undone st)
          /\ forall x, x ∈ tree st' -> r_day x = dy)).
Proof.
  intros Hm dy. unfold app_step. rewrite Hm. unfold _apply_filters.
  cbv zeta. rewrite validate_iso_date_strip. fold dy. split.
  - intros H1 H2 ->. by rewrite !bool_decide_false.
  - intros Hok.
    assert (negb (bool_decide (dy = TUTTE)) && negb (bool_decide (dy = []))
            && negb (validate_iso_date (var_day st)) = false) as ->.
    { destruct Hok as [E|[E| ->]].
      - by rewrite (bool_decide_true _ E).
      - rewrite (bool_decide_true (dy = []) E). by rewrite andb_false_r.
      - by rewrite andb_false_r. }
    rewrite load_table_calls.
    destruct (load_table_fields st) as (Hdb & _ & _ & _ & Htree & _).
    rewrite Hdb, Htree. split_and!; try done.
    + intros [E|E]; unfold day_filter, or_else; fold dy; rewrite E.
      * case_bool_decide; apply query_day_sentinel.
      * rewrite bool_decide_true by done. apply query_day_sentinel.
    + intros H1 H2.
      assert (day_filter st = dy) as ->.
      { unfold day_filter, or_else. fold dy. by rewrite bool_decide_false. }
      split; [done|].
      intros x (r & _ & -> & ([[?|[?|?]]|?] & _))%elem_of_query; simpl; congruence.
Qed.
End filter_facts.

(** ** Oggi *)

Section strftime_facts.
Context `{Platform}.

Lemma digit_char_facts v :
  0 <= v <= 9 ->
  decimal (digit_char v) = Some v
  /\ is_space (digit_char v) = false
  /\ ascii_digit (digit_char v) = true.
Proof.
  intros Hv.
  assert (v = 0 \/ v = 1 \/ v = 2 \/ v = 3 \/ v = 4 \/ v = 5 \/ v = 6 \/ v = 7
          \/ v = 8 \/ v = 9) as Hc by lia.
  repeat (destruct Hc as [->|Hc]; [by split_and!|]). subst. by split_and!.
Qed.

Lemma days_in_month_le y m : days_in_month y m <= 31.
Proof.
  unfold days_in_month. repeat case_bool_decide; try lia. destruct (is_leap y); lia.
Qed.

Lemma month_day_parse (y : Z) m d :
  1 <= m <= 12 -> 1 <= d <= 31 ->
  head (omap (fun '(m', s3) =>
                s4 ← expect 45 s3;
                '(d', s5) ← head (re_d s4);
                Some (y, m', d', s5))
             (re_m [digit_char (m / 10); digit_char (m mod 10); 45%N;
                    digit_char (d / 10); digit_char (d mod 10)]))
  = Some (y, m, d, []).
Proof.
  intros Hm Hd.
  assert (m = 1 \/ m = 2 \/ m = 3 \/ m = 4 \/ m = 5 \/ m = 6 \/ m = 7 \/ m = 8
          \/ m = 9 \/ m = 10 \/ m = 11 \/ m = 12) as Mc by lia.
  assert (exists k, 0 <= k <= 30 /\ d = 1 + k) as (k & Hk & ->)
    by (exists (d - 1); lia).
  assert (k ∈ seqZ 0 31) as Hin by (apply elem_of_seqZ; lia).
  clear Hk Hd Hm. revert k Hin. apply Forall_forall.
  let l := eval vm_compute in (seqZ 0 31) in change (seqZ 0 31) with l.
  repeat (destruct Mc as [->|Mc];
          [repeat (constructor; [reflexivity|]); constructor|]).
  subst. repeat (constructor; [reflexivity|]). constructor.
Qed.
Lemma strip_fixed_ends (x y : N) (l : pystr) :
  is_space x = false -> is_space y = false -> strip (x :: l ++ [y]) = x :: l ++ [y].
Proof.
  intros Hx Hy. unfold strip.
  rewrite lstrip_fixed, rstrip_cons_nonspace by done. f_equal.
  unfold rstrip. rewrite reverse_snoc, lstrip_fixed by done.
  by rewrite reverse_cons, reverse_involutive.
Qed.

(** X19.  What [today_iso] returns passes [validate_iso_date].  For a
    calendar date of the years 1000 to 9999, the text [strftime] makes of
    it under [DATE_FMT] is parsed back by [strptime] to the same year,
    month and day; it is already trimmed, it is accepted, and it has the
    form YYYY-MM-DD. *)
Theorem X19_today_iso_validates (y m d : Z) :
  1000 <= y <= 9999 -> 1 <= m <= 12 -> 1 <= d <= days_in_month y m ->
  let s := strftime_DATE_FMT y m d in
  strptime_DATE_FMT s = Some (y, m, d)
  /\ strip s = s
  /\ validate_iso_date s = true
  /\ matches_YYYY_MM_DD s = true.
Proof.
  intros Hy Hm Hd s. pose proof (days_in_month_le y m) as Hle.
  destruct (digit_char_facts (y / 1000)) as (D1 & S1 & A1);
    [Z.div_mod_to_equations; lia|].
  destruct (digit_char_facts (y / 100 mod 10)) as (D2 & _ & A2);
    [Z.div_mod_to_equations; lia|].
  destruct (digit_char_facts (y / 10 mod 10)) as (D3 & _ & A3);
    [Z.div_mod_to_equations; lia|].
  destruct (digit_char_facts (y mod 10)) as (D4 & _ & A4);
    [Z.div_mod_to_equations; lia|].
  destruct (digit_char_facts (m / 10)) as (_ & _ & A5); [Z.div_mod_to_equations; lia|].
  destruct (digit_char_facts (m mod 10)) as (_ & _ & A6); [Z.div_mod_to_equations; lia|].
  destruct (digit_char_facts (d / 10)) as (_ & _ & A7); [Z.div_mod_to_equations; lia|].
  destruct (digit_char_facts (d mod 10)) as (_ & S8 & A8); [Z.div_mod_to_equations; lia|].
  assert (1000 * (y / 1000) + 100 * (y / 100 mod 10) + 10 * (y / 10 mod 10) + y mod 10 = y)
    as Hdigits by (Z.div_mod_to_equations; lia).
  assert (strptime_DATE_FMT s = Some (y, m, d)) as Hparse.
  { unfold s, strptime_DATE_FMT, strftime_DATE_FMT, re_date, re_Y.
    rewrite D1, D2, D3, D4. cbn [mbind option_bind expect N.eqb Pos.eqb].
    rewrite Hdigits, month_day_parse by lia. cbn [mbind option_bind].
    by rewrite !bool_decide_true by (done || lia). }
  assert (strip s = s) as Hstrip.
  { unfold s, strftime_DATE_FMT.
    apply (strip_fixed_ends _ _ [_; _; _; _; _; _; _; _]); done. }
  split_and!; [done..| |].
  - unfold validate_iso_date. by rewrite Hstrip, Hparse.
  - unfold s, strftime_DATE_FMT, matches_YYYY_MM_DD.
    by rewrite A1, A2, A3, A4, A5, A6, A7, A8.
Qed.

End strftime_facts.

Lemma X19_today_iso_validates_witness :
  let s := strftime_DATE_FMT 2025 11 3 in
  strptime_DATE_FMT (H:=plain) s = Some (2025, 11, 3)
  /\ strip s = s
  /\ validate_iso_date (H:=plain) s = true
  /\ matches_YYYY_MM_DD s = true.
Proof.
  apply (X19_today_iso_validates (H:=plain) 2025 11 3); vm_compute; split; discriminate.
Defined.

(** ** Aggiungi, start to end *)

Section add_facts.
Context `{Platform}.
Implicit Types (st : App).


Lemma step_in_dialog clk e mode dlg st :
  modal st = Some (mode, dlg) ->
  destroyed (dialog_step clk e dlg).1 = false ->
  modal (app_step clk (InDialog e) st).1 = Some (mode, (dialog_step clk e dlg).1)
  /\ db (app_step clk (InDialog e) st).1 = db st.
Proof.
  intros Hm Hd. unfold app_step. rewrite Hm.
  destruct (dialog_step clk e dlg) as [dlg' eff]. simpl in Hd. by rewrite Hd.
Qed.

End add_facts.

(** ** Choosing a course *)

Section course_facts.
Context `{Platform}.
Implicit Types (st : App).

Global Instance rows_trimmed_closed : Closed rows_trimmed.
Proof.
  unfold rows_trimmed. split.
  - intros now d q Hd _. unfold add_lesson. simpl.
    rewrite Forall_app. split; [done|]. apply Forall_singleton. simpl.
    by rewrite !strip_idemp.
  - intros d i q Hd _. unfold update_lesson, sql_update. simpl.
    apply Forall_fmap. eapply Forall_impl; [exact Hd|].
    intros r Hr. simpl. case_bool_decide; [|done]. simpl. by rewrite !strip_idemp.
  - intros d i Hd. unfold delete_lesson. simpl.
    rewrite Forall_forall in *. intros r [_ Hr]%list_elem_of_filter. auto.
  - intros d i Hd. unfold toggle_done, sql_update. simpl.
    apply Forall_fmap. eapply Forall_impl; [exact Hd|].
    intros r Hr. simpl. by case_bool_decide.
Qed.

Lemma reachable_trimmed d : reachable d -> rows_trimmed d.
Proof.
  induction 1 as [|d evs _ IH].
  - apply Forall_nil_2.
  - by apply (run_ok rows_trimmed), (start_ok rows_trimmed).
Qed.

(** X21.  Choosing a course in the combobox.  In a session on a store the
    program has written, every entry of the combobox other than "TUTTI" is
    the course of a record; choosing it makes it the course filter and
    reloads the table, which then shows exactly what [query] returns for
    that course under the day filter and the undone flag as set: only
    lessons of that course. *)
Theorem X21_choose_course (d0 : DB) (evs : list (Clock * Event))
    (clk : Clock) (n : nat) (c : pystr) :
  reachable d0 ->
  let st := (run evs (start d0).1).1 in
  modal st = None ->
  cb_values st !! n = Some c -> c <> TUTTI ->
  let st' := (app_step clk (SelectCourse n) st).1 in
  (exists r, r ∈ rows (db st) /\ course r = c)
  /\ var_course st' = c
  /\ db st' = db st
  /\ tree st' = query (db st) (Some (day_filter st)) (Some c) (only_undone st)
  /\ forall x, x ∈ tree st' -> r_course x = c.
Proof.
  intros Hreach st Hm Hn Hc st'.
  assert (reachable (db st)) as Hr by (by apply reach_session).
  destruct (session_view_ok d0 evs) as (_ & _ & _ & Hcb & _). fold st in Hcb.
  assert (c ∈ list_courses (db st)) as Hin.
  { apply list_elem_of_lookup_2 in Hn. rewrite Hcb in Hn.
    by apply elem_of_cons in Hn as [?|?]. }
  pose proof Hin as (r & Hrin & Hrc)%elem_of_list_courses.
  assert (c <> [] /\ strip c = c) as [Hne Hstrip].
  { pose proof (reachable_ok _ Hr) as [_ Hok].
    pose proof (reachable_trimmed _ Hr) as Htr. unfold rows_trimmed in Htr.
    rewrite Forall_forall in Hok, Htr.
    destruct (Hok r Hrin) as (_ & ? & _). destruct (Htr r Hrin) as (_ & ? & _).
    subst c. done. }
  subst st'. unfold app_step. rewrite Hm, Hn. rewrite seq_act_fst.
  match goal with |- context [_load_table ?s] =>
    destruct (load_table_fields s)
      as (Hdb & _ & _ & _ & Htree & _ & _ & _ & _ & Hsame);
    set (st1 := (_load_table s).1) in *; clearbody st1 end.
  assert (tree st1 = query (db st) (Some (day_filter st)) (Some c) (only_undone st))
    as Ht.
  { rewrite Htree. unfold course_filter, or_else. simpl.
    by rewrite Hstrip, bool_decide_false. }
  split_and!; eauto.
  - apply Hsame. simpl. by right.
  - intros x. rewrite Ht.
    intros (r' & _ & -> & (_ & [[?|[?|?]]|?] & _))%elem_of_query; simpl; congruence.
Qed.
End course_facts.

(** ** Modifica, and the two Oggi buttons *)

Section edit_facts.
Context `{Platform}.
Implicit Types (st : App).

Lemma NoDup_fmap_eq {A B} (f : A -> B) (l : list A) x y :
  NoDup (f <$> l) -> x ∈ l -> y ∈ l -> f x = f y -> x = y.
Proof.
  induction l as [|a l IH]; simpl; [by intros _ ?%elem_of_nil|].
  rewrite NoDup_cons. intros [Ha Hl] [->|Hx]%elem_of_cons [->|Hy]%elem_of_cons E; auto.
  - destruct Ha. rewrite E. by apply list_elem_of_fmap_2.
  - destruct Ha. rewrite <- E. by apply list_elem_of_fmap_2.
Qed.

Lemma sql_update_same set i l :
  (forall r, r ∈ l -> lesson_id r = i -> set r = r) -> sql_update set i l = l.
Proof.
  unfold sql_update. induction l as [|a l IH]; intros Hs; [done|].
  rewrite fmap_cons, IH by (intros r Hr; apply Hs; by right).
  case_bool_decide as E; [|done]. rewrite Hs; [done|by left|done].
Qed.

(** X22.  Modifica and then Salva with nothing typed, on a store the
    program has written.  When Tk hands the three texts of the selected row
    back as they are shown, the edit dialog opens on that row's id with the
    row's own title, course, day and done state; Salva is accepted, makes
    one [update_lesson] call with exactly those values and reloads; the
    store is what it was. *)
Theorem X22_edit_and_save_unchanged (d0 : DB) (evs : list (Clock * Event))
    (clk clk' : Clock) (n : nat) (x : Row) :
  reachable d0 ->
  let st := (run evs (start d0).1).1 in
  modal st = None -> selection st = Some n -> tree st !! n = Some x ->
  tk_value (r_title x) = r_title x -> tk_value (r_course x) = r_course x ->
  tk_value (r_day x) = r_day x ->
  let st1 := (app_step clk ClickModifica st).1 in
  let st2 := (app_step clk' (InDialog ClickSalva) st1).1 in
  db st2 = db st
  /\ modal st1 = Some (Editing (r_id x),
                       mkDialog (r_title x) (r_course x) (r_day x) (r_done x) None false)
  /\ db st1 = db st
  /\ (app_step clk ClickModifica st).2 = []
  /\ modal st2 = None
  /\ (app_step clk' (InDialog ClickSalva) st1).2
     = Store (CallUpdate (r_id x)
                (mkPayload (r_title x) (r_course x) (r_day x) (r_done x)))
       :: reload_calls.
Proof.
  intros Hreach st Hm Hsel Hn Ht Hc Hd st1 st2.
  assert (reachable (db st)) as Hr by (by apply reach_session).
  destruct (session_view_ok d0 evs) as ([dy Htree] & _). fold st in Htree.
  pose proof (list_elem_of_lookup_2 _ _ _ Hn) as Hx. rewrite Htree in Hx.
  apply elem_of_query in Hx as (r & Hrin & -> & _). simpl in Ht, Hc, Hd.
  pose proof (reachable_ok _ Hr) as [Hnd Hok].
  pose proof (reachable_trimmed _ Hr) as Htr. unfold rows_trimmed in Htr.
  rewrite Forall_forall in Hok, Htr.
  destruct (Hok r Hrin) as (Htne & Hcne & Hdv & Hdone).
  destruct (Htr r Hrin) as (Hts & Hcs & Hds).
  assert (_get_selected_row st
          = Some (lesson_id r,
                  mkInitial (Some (title r)) (Some (course r)) (Some (day r))
                            (Some (done r)))) as Hrow.
  { unfold _get_selected_row. rewrite Hsel. simpl. rewrite Hn. simpl.
    rewrite Ht, Hc, Hd. by destruct Hdone as [-> | ->]. }
  assert (app_step clk ClickModifica st
          = set_modal (Some (Editing (lesson_id r),
                             mkDialog (title r) (course r) (day r) (done r) None false))
              st) as Hstep.
  { unfold app_step. rewrite Hm. unfold _edit_selected. by rewrite Hrow. }
  assert (modal st1 = Some (Editing (lesson_id r),
                            mkDialog (title r) (course r) (day r) (done r) None false)
          /\ db st1 = db st) as [Hm1 Hdb1].
  { unfold st1. by rewrite Hstep. }
  rewrite Hstep. simpl snd. simpl r_id. simpl r_title. simpl r_course.
  simpl r_day. simpl r_done.
  clearbody st1.
  destruct (save_step_accepted clk' _ _ st1 Hm1) as (Hnone & Hdb & _ & Hcalls & _);
    simpl; [by rewrite Hts|by rewrite Hcs|done|].
  simpl in Hdb, Hcalls. rewrite Hts, Hcs, Hds in Hdb, Hcalls.
  fold st2 in Hnone, Hdb.
  split_and!; try done.
  rewrite Hdb, Hdb1. unfold update_lesson, int.
  destruct (db st) as [l sq] eqn:Edb. simpl in *. f_equal.
  apply sql_update_same. intros r' Hr' Hid.
  assert (r' = r) as -> by (by eapply (NoDup_fmap_eq lesson_id)).
  destruct r. simpl in *. by rewrite Hts, Hcs, Hds.
Qed.

Lemma accepted_not_sentinel (s : pystr) :
  validate_iso_date s = true -> strip s <> [] /\ strip s <> TUTTE.
Proof.
  rewrite <- validate_iso_date_strip. intros Hv.
  split; intros E; rewrite E in Hv; vm_compute in Hv; discriminate.
Qed.

(** X23.  Oggi in the main window, when today's text is one
    [validate_iso_date] accepts: the day filter becomes that text, the
    store is left alone, and the table is reloaded with one query; it shows
    what [query] returns for today, trimmed, under the course filter and
    the undone flag as set: only lessons whose day is today. *)
Theorem X23_filter_today (clk : Clock) st :
  modal st = None ->
  validate_iso_date (today_iso clk) = true ->
  let st' := (app_step clk ClickFilterOggi st).1 in
  let dy := strip (today_iso clk) in
  db st' = db st
  /\ var_day st' = today_iso clk
  /\ (app_step clk ClickFilterOggi st).2 = [Store CallQuery; Store CallListCourses]
  /\ tree st' = query (db st) (Some dy) (Some (course_filter st)) (only_undone st)
  /\ forall x, x ∈ tree st' -> r_day x = dy.
Proof.
  intros Hm Hv st' dy. destruct (accepted_not_sentinel _ Hv) as [Hne Hns].
  subst st' dy. unfold app_step. rewrite Hm. unfold _filter_today.
  rewrite seq_act_fst, seq_act_snd, load_table_calls.
  match goal with |- context [_load_table ?s] =>
    destruct (load_table_fields s)
      as (Hdb & _ & Hday & _ & Htree & _);
    set (st1 := (_load_table s).1) in *; clearbody st1 end.
  assert (tree st1 = query (db st) (Some (strip (today_iso clk)))
                          (Some (course_filter st)) (only_undone st)) as Ht.
  { rewrite Htree. unfold day_filter, or_else. simpl.
    by rewrite bool_decide_false. }
  split_and!; try done.
  intros x. rewrite Ht.
  intros (r & _ & -> & ([[?|[?|?]]|?] & _))%elem_of_query; simpl; congruence.
Qed.

(** X24.  Oggi in the dialog, then Salva.  In a session, with title and
    course not blank and today's text one [validate_iso_date] accepts,
    whatever stood in the day field is replaced: the dialog closes and the
    one write carries today, trimmed, as the day, with the trimmed title
    and course and the checkbox value. *)
Theorem X24_dialog_today_then_save (d0 : DB) (evs : list (Clock * Event))
    (clk clk' : Clock) (mode : Mode) (dlg : Dialog) :
  let st := (run evs (start d0).1).1 in
  modal st = Some (mode, dlg) ->
  strip (e_title dlg) <> [] -> strip (e_course dlg) <> [] ->
  validate_iso_date (today_iso clk) = true ->
  let st1 := (app_step clk (InDialog ClickOggi) st).1 in
  let st2 := (app_step clk' (InDialog ClickSalva) st1).1 in
  let t := strip (e_title dlg) in
  let c := strip (e_course dlg) in
  let dy := strip (today_iso clk) in
  modal st2 = None
  /\ modal st1 = Some (mode, mkDialog (e_title dlg) (e_course dlg) (today_iso clk)
                               (var_done dlg) None false)
  /\ db st1 = db st
  /\ db st2 = match mode with
              | Adding => add_lesson (current_timestamp clk') (db st) t c dy
                                     (Some (var_done dlg))
              | Editing i => update_lesson (db st) i t c dy (var_done dlg)
              end
  /\ forall r, r ∈ rows (db st2) -> r ∉ rows (db st) -> day r = dy.
Proof.
  intros st Hm Ht Hc Hv st1 st2 t c dy.
  destruct (session_dialog_open _ _ _ _ Hm) as (Hopen & Hres & _).
  destruct (step_in_dialog clk ClickOggi _ _ st Hm Hopen) as [Hm1 Hdb1].
  change (app_step clk (InDialog ClickOggi) st).1 with st1 in Hm1, Hdb1.
  change (dialog_step clk ClickOggi dlg).1 with (_set_today clk dlg) in Hm1.
  unfold _set_today in Hm1. rewrite Hres, Hopen in Hm1.
  clearbody st1.
  destruct (save_step_accepted clk' _ _ st1 Hm1 Ht Hc Hv) as (Hnone & Hdb & _).
  fold st2 in Hnone, Hdb. simpl in Hdb. rewrite Hdb1 in Hdb. fold t c dy in Hdb.
  split_and!; try done.
  intros r Hr Hnew. rewrite Hdb in Hr. destruct mode as [|i].
  - unfold add_lesson in Hr. simpl in Hr.
    apply elem_of_app in Hr as [Hr|Hr%list_elem_of_singleton]; [done|].
    subst r. simpl. unfold dy. apply strip_idemp.
  - unfold update_lesson, sql_update in Hr. simpl in Hr.
    apply list_elem_of_fmap in Hr as (r0 & -> & Hr0).
    case_bool_decide; [|done]. simpl. unfold dy. apply strip_idemp.
Qed.
End edit_facts.

(** ** The further properties on the worked sessions *)

Lemma X9_selected_row_is_current_witness :
  exists r, r ∈ rows (db (after selecting_session)) /\ lesson_id r = 3
            /\ mkInitial (Some (str "History 1")) (Some (str "History"))
                         (Some (str "2025-01-05")) (Some 0)
               = mkInitial (Some (@tk_value plain (title r)))
                           (Some (@tk_value plain (course r)))
                           (Some (@tk_value plain (day r)))
                           (Some (if is_done r then 1 else 0)).
Proof.
  apply (X9_selected_row_is_current (H:=plain) empty_db selecting_session 3).
  vm_compute. reflexivity.
Defined.

Lemma X10_other_events_do_not_write_witness :
  db (app_step (H:=plain) monday ClickRicarica (after selecting_session)).1
  = db (after selecting_session)
  /\ Forall (fun e => ~ is_write_call e)
            (app_step (H:=plain) monday ClickRicarica (after selecting_session)).2.
Proof.
  apply (X10_other_events_do_not_write (H:=plain) empty_db selecting_session
           monday ClickRicarica).
  intros [E|[E|E]]; discriminate E.
Defined.

Lemma X11_save_rejects_course_and_day_witness :
  app_step (H:=plain) monday (InDialog ClickSalva) (after typing_session)
  = (after typing_session, [ShowError "Inserisci il corso/categoria."]).
Proof.
  apply (proj1 (X11_save_rejects_course_and_day (H:=plain) empty_db typing_session
                  monday Adding logic_dialog
                  ltac:(vm_compute; reflexivity) ltac:(vm_compute; discriminate))).
  vm_compute. reflexivity.
Defined.

Lemma X12_save_accepted_witness :
  modal (app_step (H:=plain) monday (InDialog ClickSalva) (after typed_session)).1 = None.
Proof.
  apply (X12_save_accepted (H:=plain) monday Adding logic_math_dialog
           (after typed_session)).
  - vm_compute. reflexivity.
  - vm_compute. discriminate.
  - vm_compute. discriminate.
  - vm_compute. reflexivity.
Defined.

Lemma X13_cancel_only_closes_witness :
  app_step (H:=plain) monday (InDialog ClickAnnulla) (after typing_session)
  = (mkApp (db (after typing_session)) (var_day (after typing_session))
           (var_course (after typing_session)) (var_only_undone (after typing_session))
           (cb_values (after typing_session)) (tree (after typing_session))
           (selection (after typing_session)) (status (after typing_session)) None, []).
Proof.
  apply (X13_cancel_only_closes (H:=plain) empty_db typing_session monday Adding
           logic_dialog).
  vm_compute. reflexivity.
Defined.

Lemma X14_delete_selected_witness :
  db (app_step (H:=plain) monday (ClickElimina true) (after selecting_session)).1
  = delete_lesson (db (after selecting_session)) 3.
Proof.
  apply (X14_delete_selected (H:=plain) monday (after selecting_session) 3
           (mkInitial (Some (str "History 1")) (Some (str "History"))
                      (Some (str "2025-01-05")) (Some 0)));
    vm_compute; reflexivity.
Defined.

Lemma X15_toggle_selected_witness :
  db (app_step (H:=plain) monday ClickFatta (after selecting_session)).1
  = toggle_done (db (after selecting_session)) 3.
Proof.
  apply (X15_toggle_selected (H:=plain) monday (after selecting_session) 3
           (mkInitial (Some (str "History 1")) (Some (str "History"))
                      (Some (str "2025-01-05")) (Some 0)));
    vm_compute; reflexivity.
Defined.

Lemma X17_filter_all_shows_everything_witness :
  db (app_step (H:=plain) monday ClickTutte (after selecting_session)).1
  = db (after selecting_session).
Proof.
  apply (X17_filter_all_shows_everything monday (H:=plain) (after selecting_session)).
  vm_compute. reflexivity.
Defined.

Lemma X18_apply_filters_witness :
  db (app_step (H:=plain) monday ClickApplica (after selecting_session)).1
  = db (after selecting_session).
Proof.
  apply (proj2 (X18_apply_filters (H:=plain) monday (after selecting_session)
                  ltac:(vm_compute; reflexivity))).
  left. vm_compute. reflexivity.
Defined.


Lemma X21_choose_course_witness :
  var_course (app_step (H:=plain) monday (SelectCourse 1) (after three_adds)).1
  = str "History".
Proof.
  refine (proj1 (proj2 (X21_choose_course (H:=plain) empty_db three_adds monday 1
                          (str "History") reach_new _ _ _))).
  - vm_compute. reflexivity.
  - vm_compute. reflexivity.
  - vm_compute. discriminate.
Defined.

Lemma X22_edit_and_save_unchanged_witness :
  db (app_step (H:=plain) monday (InDialog ClickSalva)
        (app_step (H:=plain) monday ClickModifica (after selecting_session)).1).1
  = db (after selecting_session).
Proof.
  refine (proj1 (X22_edit_and_save_unchanged (H:=plain) empty_db selecting_session
                   monday monday 0
                   (mkRow 3 (str "History 1") (str "History") (str "2025-01-05") 0)
                   reach_new _ _ _ _ _ _));
    vm_compute; reflexivity.
Defined.

Lemma X23_filter_today_witness :
  db (app_step (H:=plain) monday ClickFilterOggi (after three_adds)).1
  = db (after three_adds).
Proof.
  refine (proj1 (X23_filter_today (H:=plain) monday (after three_adds) _ _));
    vm_compute; reflexivity.
Defined.

Lemma X24_dialog_today_then_save_witness :
  modal (app_step (H:=plain) monday (InDialog ClickSalva)
           (app_step (H:=plain) monday (InDialog ClickOggi) (after typed_session)).1).1
  = None.
Proof.
  refine (proj1 (X24_dialog_today_then_save (H:=plain) empty_db typed_session
                   monday monday Adding logic_math_dialog _ _ _ _)).
  - vm_compute. reflexivity.
  - vm_compute. discriminate.
  - vm_compute. discriminate.
  - vm_compute. reflexivity.
Defined.
